(** * django-netjsonconfig: controller views, template API and device key field

    A shallow embedding of
    - [django_netjsonconfig/controller/views.py] (checksum, download,
      report-status, register),
    - [django_netjsonconfig/api/generics.py] (template detail, template list,
      external template creation, template subscription),
    - [django_netjsonconfig/migrations/0042_device_key_none.py] (the device
      key field),
    together with the properties the specification states about them.

    Database tables with a primary key are finite maps from the primary key
    to the row ([gmap string _]); the subscription table, which is queried by
    non-key columns, is a list of rows.  Query dictionaries ([request.GET],
    [request.POST]) are finite maps from parameter names to values.  A view
    either returns a response or raises; random identifiers are an explicit
    argument. *)

From Stdlib Require Import Ascii String.
From stdpp Require Import base option list strings gmap fin_maps.

Open Scope string_scope.

(** ** HTTP responses and exceptions *)

Module Http.

Record Response := mkResponse {
  status_code : nat;
  content_type : string;
  content : string
}.

(** Exceptions a view can leave uncaught. *)
Inductive exception :=
| Http404
| DoesNotExist
| MultipleObjectsReturned
| TypeError
| ValueError
| ValidationError (messages : list string).

(** A view returns a response or raises. *)
Inductive outcome (R : Type) :=
| Returns (r : R)
| Raises (e : exception).
Arguments Returns {R} r.
Arguments Raises {R} e.

(** Response classes carry a status code. *)
Class HasStatus (R : Type) := status_of : R -> nat.

#[export] Instance Response_status : HasStatus Response := status_code.

(** What the client sees: the response's own status, 404 for [Http404],
    500 for any other uncaught exception. *)
Definition http_status {R} `{HasStatus R} (o : outcome R) : nat :=
  match o with
  | Returns r => status_of r
  | Raises Http404 => 404
  | Raises _ => 500
  end.

(** [request.GET] / [request.POST]: [params.get(name)] is [params !! name];
    [scheme] is [request.META.get('wsgi.url_scheme')] and [host] is
    [request.get_host()]. *)
Record request := mkRequest {
  method : string;
  GET : gmap string string;
  POST : gmap string string;
  scheme : string;
  host : string
}.

(** The line feed of the Python literals ['\n']. *)
Definition nl : string := String (ascii_of_nat 10) EmptyString.

(** [HttpResponseNotAllowed], returned by [require_http_methods]. *)
Definition not_allowed : Response :=
  {| status_code := 405; content_type := "text/html"; content := "" |}.

End Http.

Import Http.

(** ** controller/views.py *)

Module Controller.

(** A row of the [Config] table; the primary key ([id]) is the key of the
    table.  [views.py] reads [config.key], [config.status] and, at
    registration, sets [name] and [backend]. *)
Record Config := mkConfig {
  c_name : string;
  c_backend : string;
  c_key : string;
  c_status : string
}.

(** [settings.py]: the three values [views.py] imports. *)
Record settings := mkSettings {
  REGISTRATION_ENABLED : bool;
  SHARED_SECRET : string;
  BACKENDS : list (string * string)
}.

(** Modelled from the spec: [Config.STATUS], the choices of the status
    field (the model class is not part of the sources).  The spec gives the
    status set as modified, applied, error. *)
Definition STATUS : list (string * string) :=
  [("modified", "modified"); ("applied", "applied"); ("error", "error")].

(** The third argument of [forbid_unallowed] as [views.py] passes it:
    [None], one value ([config.key], [SHARED_SECRET]) or a list. *)
Inductive allowed_values :=
| Anything
| Exactly (v : string)
| AnyOf (vs : list string).

Definition permits (allowed : allowed_values) (value : string) : bool :=
  match allowed with
  | Anything => true
  | Exactly v => bool_decide (value = v)
  | AnyOf vs => bool_decide (value ∈ vs)
  end.

(** Modelled from the spec: [utils.ControllerResponse], the response class
    of the controller (not part of the sources); its [status] defaults to
    200, which the callers below pass explicitly. *)
Definition ControllerResponse (content content_type : string) (status : nat)
  : Response :=
  {| status_code := status; content_type := content_type; content := content |}.

(** Modelled from the spec: [utils.forbid_unallowed] (not part of the
    sources).  The spec: a wrong or missing key, a status outside the
    allowed set, a bad secret or backend are answered 403; otherwise the
    request goes on ([None]).  The spec fixes the status only, the body is
    left empty here. *)
Definition forbid_unallowed (params : gmap string string) (param : string)
    (allowed : allowed_values) : option Response :=
  match params !! param with
  | None => Some (ControllerResponse "" "text/plain" 403)
  | Some value =>
      if permits allowed value then None
      else Some (ControllerResponse "" "text/plain" 403)
  end.

(** Modelled from the spec: [utils.get_config_or_404] (not part of the
    sources): the row with that primary key, [None] standing for the raised
    [Http404] ("404 if unknown device"). *)
Definition get_config_or_404 (db : gmap string Config) (pk : string)
  : option Config := db !! pk.

(** [config.save()]: writes the row under its primary key. *)
Definition save (pk : string) (config : Config) (db : gmap string Config)
  : gmap string Config := <[pk := config]> db.

(** The loops [for key, value in required_params: ...]: the first bad
    response, if any. *)
Fixpoint first_bad_response (params : gmap string string)
    (required_params : list (string * allowed_values)) : option Response :=
  match required_params with
  | [] => None
  | (key, value) :: rest =>
      match forbid_unallowed params key value with
      | Some bad_response => Some bad_response
      | None => first_bad_response params rest
      end
  end.

(** The decorator [@require_http_methods(request_method_list)]. *)
Definition require_http_methods {A} (request_method_list : list string)
    (request : Http.request) (refused : Response -> A) (view : A) : A :=
  if bool_decide (method request ∈ request_method_list) then view
  else refused not_allowed.

Section Views.
(** [config.checksum] and [utils.send_config] live in modules that are
    not part of the sources; they are parameters of the views. *)
Variable config_checksum : Config -> string.
Variable send_config : Config -> request -> Response.

Definition checksum (db : gmap string Config) (request : Http.request)
    (pk : string) : outcome Response :=
  require_http_methods ["GET"] request Returns
    match get_config_or_404 db pk with
    | None => Raises Http404
    | Some config =>
        match forbid_unallowed (GET request) "key" (Exactly (c_key config)) with
        | Some bad_response => Returns bad_response
        | None =>
            Returns (ControllerResponse (config_checksum config)
                                        "text/plain" 200)
        end
    end.

Definition download_config (db : gmap string Config)
    (request : Http.request) (pk : string) : outcome Response :=
  require_http_methods ["GET"] request Returns
    match get_config_or_404 db pk with
    | None => Raises Http404
    | Some config =>
        match forbid_unallowed (GET request) "key" (Exactly (c_key config)) with
        | Some bad_response => Returns bad_response
        | None => Returns (send_config config request)
        end
    end.
End Views.

Definition with_status (config : Config) (s : string) : Config :=
  {| c_name := c_name config; c_backend := c_backend config;
     c_key := c_key config; c_status := s |}.

(** [report_status]: the table after the request and the outcome. *)
Definition report_status (db : gmap string Config) (request : Http.request)
    (pk : string) : gmap string Config * outcome Response :=
  require_http_methods ["POST"] request (fun r => (db, Returns r))
    match get_config_or_404 db pk with
    | None => (db, Raises Http404)
    | Some config =>
        let allowed_status := map fst STATUS in
        let required_params :=
          [("key", Exactly (c_key config)); ("status", AnyOf allowed_status)] in
        match first_bad_response (POST request) required_params with
        | Some bad_response => (db, Returns bad_response)
        | None =>
            (* past the loop [status] is present: [forbid_unallowed]
               refuses a missing parameter *)
            let config :=
              with_status config (default "" (POST request !! "status")) in
            (save pk config db,
             Returns (ControllerResponse
                        ("report-result: success" ++ nl ++
                         "current-status: " ++ c_status config ++ nl)
                        "text/plain" 200))
        end
    end.

(** Modelled from the spec: the [Device] of a config (the model class is
    not part of the sources).  The spec gives a device an identity, a name
    and a key, and the ownership of exactly one [Config]; the other
    attributes are not set at registration.  The row of the device and the
    row of the config it owns are under the same identity. *)
Record Device := mkDevice {
  d_name : string;
  d_key : string
}.

(** The two tables registration writes. *)
Record registry := mkRegistry {
  reg_devices : gmap string Device;
  reg_configs : gmap string Config
}.

(** The identities and the keys in use. *)
Definition ids_in_use (reg : registry) : gset string :=
  dom (reg_devices reg) ∪ dom (reg_configs reg).

Definition keys_in_use (reg : registry) : gset string :=
  map_img (d_key <$> reg_devices reg) ∪
  map_img (c_key <$> reg_configs reg).

(** Modelled from the spec: [Config.objects.create(name=, backend=)] (the
    models are not part of the sources).  The spec: registration "creates a
    new Device+Config pair with a freshly generated key"; a key is unique,
    and a config starts in the status modified.  The identity is one that
    no row has, the key one that no device and no config has; the device
    gets the name and the key, the config the backend, and, as [views.py]
    reads [key] and [name] from the config, these two as well. *)
Definition create (name backend : string) (reg : registry)
  : registry * (string * Config) :=
  let id := fresh (ids_in_use reg) in
  let key := fresh (keys_in_use reg) in
  let device := {| d_name := name; d_key := key |} in
  let config := {| c_name := name; c_backend := backend;
                   c_key := key; c_status := "modified" |} in
  ({| reg_devices := <[id := device]> (reg_devices reg);
      reg_configs := <[id := config]> (reg_configs reg) |},
   (id, config)).

(** The body of [register]. *)
Definition register_view (st : settings) (reg : registry)
    (request : Http.request) : registry * outcome Response :=
  require_http_methods ["POST"] request (fun r => (reg, Returns r))
    (let allowed_backends := map fst (BACKENDS st) in
     let required_params :=
       [("secret", Exactly (SHARED_SECRET st));
        ("name", Anything);
        ("backend", AnyOf allowed_backends)] in
     match first_bad_response (POST request) required_params with
     | Some bad_response => (reg, Returns bad_response)
     | None =>
         let '(reg', (id, config)) :=
           create (default "" (POST request !! "name"))
                  (default "" (POST request !! "backend")) reg in
         (reg',
          Returns (ControllerResponse
                     ("registration-result: success" ++ nl ++
                      "uuid: " ++ id ++ nl ++
                      "key: " ++ c_key config ++ nl)
                     "text/plain" 201))
     end).

(** [register] is defined only [if REGISTRATION_ENABLED]. *)
Definition register (st : settings)
  : option (registry -> request -> registry * outcome Response) :=
  if REGISTRATION_ENABLED st then Some (register_view st) else None.

(** The spec's "never leak whether the device exists", for a view that
    reads its key from the query string: a caller without the right key gets
    the same status for an id that has a config as for one that has none. *)
Definition conceals_existence
    (view : gmap string Config -> request -> string -> outcome Response)
  : Prop :=
  ∀ db request pk pk' config,
    db !! pk = Some config -> db !! pk' = None ->
    GET request !! "key" ≠ Some (c_key config) ->
    http_status (view db request pk) = http_status (view db request pk').

End Controller.


(** ** api/generics.py *)

Module Api.

(** A row of the [Template] table (primary key apart): the columns the views
    filter on, the foreign key to [Vpn], and the remaining columns taken
    together. *)
Record Template := mkTemplate {
  t_name : string;
  t_description : string;
  t_sharing : string;
  t_key : option string;
  t_type : string;
  t_vpn : option string;
  t_other : string
}.

(** The payload of a rest_framework [Response(data, status=...)]. *)
Inductive payload :=
| NoData
| Serialized (json : string)
| SerializedList (items : list string)
| ErrorDict (errors : gmap string (list string)).

Record Response := mkResponse {
  data : payload;
  status : nat
}.

#[export] Instance Response_status : HasStatus Response := status.

(** Python truth of [params.get(name, None)]: present and not empty. *)
Definition truthy (value : option string) : bool :=
  match value with
  | Some s => negb (String.eqb s "")
  | None => false
  end.

(** *** BaseTemplateDetailView *)

(** The keyword arguments [opts] of the lookup. *)
Record opts := mkOpts {
  o_pk : string;
  o_sharing : string;
  o_key : option string
}.

Definition satisfies (o : opts) (t : Template) : bool :=
  bool_decide (t_sharing t = o_sharing o) &&
  match o_key o with
  | None => true
  | Some key => bool_decide (t_key t = Some key)
  end.

(** rest_framework's [get_object_or_404] applied to the model and [opts]:
    the row that meets every filter, [None] standing for the raised
    [Http404].  [pk] is the primary key, so at most one row qualifies. *)
Definition get_object_or_404 (db : gmap string Template) (o : opts)
  : option Template :=
  match db !! o_pk o with
  | Some t => if satisfies o t then Some t else None
  | None => None
  end.

Module BaseTemplateDetailView.
Section View.
(** The serializer class is set by the concrete views of other
    repositories. *)
Variable template_detail_serializer : string -> Template -> string.

Definition get (db : gmap string Template) (request : Http.request)
    (uuid : string) : outcome Response :=
  let key := GET request !! "key" in
  let o := {| o_pk := uuid; o_sharing := "public"; o_key := None |} in
  let o := if truthy key
           then {| o_pk := o_pk o; o_sharing := "secret_key"; o_key := key |}
           else o in
  match get_object_or_404 db o with
  | None => Raises Http404
  | Some template =>
      Returns {| data := Serialized (template_detail_serializer uuid template);
                 status := 200 |}
  end.

End View.
End BaseTemplateDetailView.

(** *** BaseListTemplateView *)

(** ASCII case folding, as the [LIKE] of the default database does for
    [__icontains]. *)
Definition lower_ascii (c : ascii) : ascii :=
  let n := nat_of_ascii c in
  if (65 <=? n)%nat && (n <=? 90)%nat then ascii_of_nat (n + 32) else c.

Fixpoint lower (s : string) : string :=
  match s with
  | EmptyString => EmptyString
  | String c s' => String (lower_ascii c) (lower s')
  end.

Fixpoint starts_with (p s : string) : bool :=
  match p, s with
  | EmptyString, _ => true
  | String _ _, EmptyString => false
  | String a p', String b s' => Ascii.eqb a b && starts_with p' s'
  end.

Fixpoint contains (s p : string) : bool :=
  starts_with p s ||
  match s with
  | EmptyString => false
  | String _ s' => contains s' p
  end.

(** [field__icontains=p]. *)
Definition icontains (field p : string) : bool :=
  contains (lower field) (lower p).

(** [qs.filter(...)] on a condition of the row. *)
Definition qs_filter (cond : Template -> bool) (qs : gmap string Template)
  : gmap string Template :=
  filter (fun row : string * Template => cond row.2 = true) qs.

Module BaseListTemplateView.
Section View.
Variable list_serializer : string -> Template -> string.

Definition get_queryset (queryset : gmap string Template)
    (request : Http.request) : gmap string Template :=
  let name := GET request !! "name" in
  let des := GET request !! "des" in
  let qs :=
    qs_filter (fun t => bool_decide (t_sharing t = "public")) queryset in
  if truthy name && bool_decide (des = None) then
    qs_filter (fun t => icontains (t_name t) (default "" name)) qs
  else if truthy des && bool_decide (name = None) then
    qs_filter (fun t => icontains (t_description t) (default "" des)) qs
  else
    match name, des with
    | Some name, Some des =>
        qs_filter (fun t => icontains (t_description t) des &&
                            icontains (t_name t) name) qs
    | _, _ => qs
    end.

Definition get (queryset : gmap string Template)
    (request : Http.request) : outcome Response :=
  let data := get_queryset queryset request in
  Returns {| data := SerializedList
                       (map (fun row => list_serializer row.1 row.2)
                            (map_to_list data));
             status := 200 |}.

End View.
End BaseListTemplateView.

(** *** Tables the create and subscription views work on *)

Record Ca := mkCa { ca_other : string }.
Record Cert := mkCert { cert_ca : string; cert_other : string }.
Record Vpn := mkVpn {
  vpn_name : string;
  vpn_ca : string;
  vpn_cert : string;
  vpn_other : string
}.

Record TemplateSubscription := mkTemplateSubscription {
  s_template : string;
  s_subscriber : option string;
  s_subscribe : bool
}.

(** A call [subscribe.delay(template_id, import_url, subscriber_url,
    subscribe=...)] handed to the task queue. *)
Record subscribe_task := mkTask {
  task_template : string;
  task_import_url : option string;
  task_subscriber_url : string;
  task_subscribe : bool
}.

Record database := mkDatabase {
  cas : gmap string Ca;
  certs : gmap string Cert;
  vpns : gmap string Vpn;
  templates : gmap string Template;
  subscriptions : list TemplateSubscription;
  tasks : list subscribe_task
}.

Definition set_cas (f : gmap string Ca -> gmap string Ca) (db : database) :=
  mkDatabase (f (cas db)) (certs db) (vpns db) (templates db)
             (subscriptions db) (tasks db).
Definition set_certs (f : gmap string Cert -> gmap string Cert)
    (db : database) :=
  mkDatabase (cas db) (f (certs db)) (vpns db) (templates db)
             (subscriptions db) (tasks db).
Definition set_vpns (f : gmap string Vpn -> gmap string Vpn) (db : database) :=
  mkDatabase (cas db) (certs db) (f (vpns db)) (templates db)
             (subscriptions db) (tasks db).
Definition set_templates (f : gmap string Template -> gmap string Template)
    (db : database) :=
  mkDatabase (cas db) (certs db) (vpns db) (f (templates db))
             (subscriptions db) (tasks db).
Definition set_subscriptions
    (f : list TemplateSubscription -> list TemplateSubscription)
    (db : database) :=
  mkDatabase (cas db) (certs db) (vpns db) (templates db)
             (f (subscriptions db)) (tasks db).
Definition set_tasks (f : list subscribe_task -> list subscribe_task)
    (db : database) :=
  mkDatabase (cas db) (certs db) (vpns db) (templates db)
             (subscriptions db) (f (tasks db)).

(** [model.objects.get] with keyword filters on a table with a primary key. *)
Definition table_get {R} (cond : R -> bool) (table : gmap string R)
  : exception + (string * R) :=
  match
    map_to_list (filter (fun row : string * R => cond row.2 = true) table)
  with
  | [] => inl DoesNotExist
  | [row] => inr row
  | _ => inl MultipleObjectsReturned
  end.

(** *** BaseCreateTemplateView *)

(** The dictionary fetched from the remote template library: [data['vpn']]
    with its nested [ca] and [cert], and the template's own entries. *)
Record vpn_payload := mkVpnPayload {
  vp_id : string;
  vp_name : string;
  vp_other : string;
  vp_ca : string * Ca;
  vp_cert : string * string
}.

Record template_data := mkTemplateData {
  d_id : string;
  d_name : string;
  d_description : string;
  d_sharing : string;
  d_key : option string;
  d_type : string;
  d_other : string;
  d_vpn : option vpn_payload
}.

(** [self.template_model] applied to the entries of [data], [data['vpn']]
    being [vpn]. *)
Definition template_model (data : template_data) (vpn : option string)
  : string * Template :=
  (d_id data,
   {| t_name := d_name data; t_description := d_description data;
      t_sharing := d_sharing data; t_key := d_key data;
      t_type := d_type data; t_vpn := vpn; t_other := d_other data |}).

Module BaseCreateTemplateView.
Section View.
(** [utils.get_remote_template_data] and the models' [full_clean] are not
    part of the sources.  A [full_clean] passes ([true], or [None] for the
    template) or raises [ValidationError] (with [messages] for the
    template). *)
Variable get_remote_template_data : option string -> template_data.
Variable ca_full_clean : database -> string * Ca -> bool.
Variable cert_full_clean : database -> string * Cert -> bool.
Variable vpn_full_clean : database -> string * Vpn -> bool.
Variable template_full_clean :
  database -> string * Template -> option (list string).

(** [save_template]: [None] when it returns, the messages of the
    [ValidationError] when it raises. *)
Definition save_template (db : database) (template : string * Template)
    (import_url : option string) (request : Http.request)
  : database * option (list string) :=
  match template_full_clean db template with
  | Some messages => (db, Some messages)
  | None =>
      let db := set_templates (insert template.1 template.2) db in
      let subscriber_url := scheme request ++ "://" ++ host request in
      let task := mkTask template.1 import_url subscriber_url true in
      (set_tasks (fun queue => (queue ++ [task])%list) db, None)
  end.

(** The [try: save_template(...) except ValidationError as e: ...] block and
    the final [Response(status=200)], which both branches of [post] end
    with. *)
Definition save_or_report (db : database) (template : string * Template)
    (import_url : option string) (request : Http.request)
  : database * outcome Response :=
  match save_template db template import_url request with
  | (db, Some messages) =>
      let errors : gmap string (list string) := ∅ in
      let errors := <["template_errors" := messages]> errors in
      (db, Returns {| data := ErrorDict errors; status := 500 |})
  | (db, None) => (db, Returns {| data := NoData; status := 200 |})
  end.

(** [ca.full_clean(); ca.save()], and on [ValidationError] the stored row
    with the same primary key. *)
Definition clean_ca (db : database) (ca : string * Ca)
  : database * (exception + (string * Ca)) :=
  if ca_full_clean db ca then (set_cas (insert ca.1 ca.2) db, inr ca)
  else match cas db !! ca.1 with
       | Some row => (db, inr (ca.1, row))
       | None => (db, inl DoesNotExist)
       end.

Definition clean_cert (db : database) (cert : string * Cert)
  : database * (exception + (string * Cert)) :=
  if cert_full_clean db cert
  then (set_certs (insert cert.1 cert.2) db, inr cert)
  else match certs db !! cert.1 with
       | Some row => (db, inr (cert.1, row))
       | None => (db, inl DoesNotExist)
       end.

(** For the vpn the fallback looks the row up by name. *)
Definition clean_vpn (db : database) (vpn : string * Vpn)
  : database * (exception + (string * Vpn)) :=
  if vpn_full_clean db vpn then (set_vpns (insert vpn.1 vpn.2) db, inr vpn)
  else (db, table_get (fun row => bool_decide (vpn_name row = vpn_name vpn.2))
                      (vpns db)).

(** The statements of the [if data['type'] == 'vpn'] branch before the
    template is built: the vpn the template will refer to. *)
Definition prepare_vpn (db : database) (vp : vpn_payload)
  : database * (exception + (string * Vpn)) :=
  match clean_ca db (vp_ca vp) with
  | (db, inl e) => (db, inl e)
  | (db, inr ca) =>
      let cert := ((vp_cert vp).1,
                   {| cert_ca := ca.1; cert_other := (vp_cert vp).2 |}) in
      match clean_cert db cert with
      | (db, inl e) => (db, inl e)
      | (db, inr cert) =>
          clean_vpn db (vp_id vp,
                        {| vpn_name := vp_name vp; vpn_ca := ca.1;
                           vpn_cert := cert.1; vpn_other := vp_other vp |})
      end
  end.

Definition post (db : database) (request : Http.request)
  : database * outcome Response :=
  let import_url := POST request !! "url" in
  let data := get_remote_template_data import_url in
  if bool_decide (d_type data = "vpn") then
    match d_vpn data with
    | None => (db, Raises TypeError)
    | Some vp =>
        match prepare_vpn db vp with
        | (db, inl e) => (db, Raises e)
        | (db, inr vpn) =>
            let template := template_model data (Some vpn.1) in
            save_or_report db template import_url request
        end
    end
  else
    match d_vpn data with
    | Some _ => (db, Raises ValueError)
    | None =>
        let template := template_model data None in
        save_or_report db template import_url request
    end.

End View.
End BaseCreateTemplateView.

(** *** BaseTemplateSubscriptionView *)

(** [template_subscribe_model.objects.get(template=, subscriber=)]: the
    position and the row of the single match. *)
Definition same_pair (template : string) (subscriber : option string)
    (row : TemplateSubscription) : Prop :=
  s_template row = template ∧ s_subscriber row = subscriber.

#[export] Instance same_pair_dec template subscriber row :
  Decision (same_pair template subscriber row).
Proof. unfold same_pair. apply _. Defined.

Definition subscription_get (template : string) (subscriber : option string)
    (rows : list TemplateSubscription)
  : exception + (nat * TemplateSubscription) :=
  match list_find (same_pair template subscriber) rows with
  | None => inl DoesNotExist
  | Some (i, row) =>
      match list_find (same_pair template subscriber) (drop (S i) rows) with
      | None => inr (i, row)
      | Some _ => inl MultipleObjectsReturned
      end
  end.

Module BaseTemplateSubscriptionView.
Section View.
(** The [subscribe] column is a boolean field: [to_python] is its conversion
    of the posted value ([None] being the default [False] of
    [request.POST.get('subscribe', False)]), undefined when the field
    refuses the value.  [full_clean] is the validation of a new row.
    Neither is part of the sources. *)
Variable to_python : option string -> option bool.
Variable full_clean : database -> TemplateSubscription -> option (list string).

Definition post (db : database) (request : Http.request)
  : database * outcome Response :=
  let subscribe := POST request !! "subscribe" in
  let template_pk := POST request !! "template" in
  match template_pk with
  | None => (db, Raises DoesNotExist)
  | Some template =>
      match templates db !! template with
      | None => (db, Raises DoesNotExist)
      | Some _ =>
          let subscriber := POST request !! "subscriber" in
          match subscription_get template subscriber (subscriptions db) with
          | inr (i, notification) =>
              match to_python subscribe with
              | None => (db, Raises (ValidationError []))
              | Some flag =>
                  let notification :=
                    {| s_template := s_template notification;
                       s_subscriber := s_subscriber notification;
                       s_subscribe := flag |} in
                  (set_subscriptions
                     (fun rows => <[i := notification]> rows) db,
                   Returns {| data := NoData; status := 200 |})
              end
          | inl DoesNotExist =>
              match to_python subscribe with
              | None => (db, Raises (ValidationError []))
              | Some flag =>
                  let notify :=
                    {| s_template := template; s_subscriber := subscriber;
                       s_subscribe := flag |} in
                  match full_clean db notify with
                  | Some messages => (db, Raises (ValidationError messages))
                  | None =>
                      (set_subscriptions
                         (fun rows => (rows ++ [notify])%list) db,
                       Returns {| data := NoData; status := 200 |})
                  end
              end
          | inl e => (db, Raises e)
          end
      end
  end.

End View.
End BaseTemplateSubscriptionView.

(** *** BaseTemplateSynchronizationView *)

Module BaseTemplateSynchronizationView.
Section View.
(** The template model is not part of the sources: [url] is its [url]
    column, and [full_clean] its validation, which raises
    [ValidationError] with messages ([inl]) or leaves the instance, as
    cleaned, to be saved ([inr]). *)
Variable url : Template -> option string.
Variable full_clean : database -> string * Template -> list string + Template.

Definition post (db : database) (request : Http.request)
  : database * outcome Response :=
  let template_id := POST request !! "template_id" in
  let subscriber_url := scheme request ++ "://" ++ host request in
  match template_id with
  | None => (db, Raises DoesNotExist)
  | Some pk =>
      match templates db !! pk with
      | None => (db, Raises DoesNotExist)
      | Some row =>
          match full_clean db (pk, row) with
          | inl messages => (db, Raises (ValidationError messages))
          | inr template =>
              let db := set_templates (insert pk template) db in
              let task := mkTask pk (url template) subscriber_url true in
              (set_tasks (fun queue => (queue ++ [task])%list) db,
               Returns {| data := NoData; status := 200 |})
          end
      end
  end.

End View.
End BaseTemplateSynchronizationView.

(** *** Notions the properties are stated with *)

(** [p] occurs in [s]. *)
Definition is_substring (p s : string) : Prop := ∃ a b, s = a ++ p ++ b.

(** The table after a template has been saved and its subscription task
    queued. *)
Definition saved (db : database) (template : string * Template)
    (import_url : option string) (request : Http.request) : database :=
  set_tasks
    (fun q => (q ++ [mkTask template.1 import_url
                       (scheme request ++ "://" ++ host request) true])%list)
    (set_templates (insert template.1 template.2) db).

(** The natural key of a subscription. *)
Definition pair_of (row : TemplateSubscription) : string * option string :=
  (s_template row, s_subscriber row).

(** The tables the subscription view leads to, one POST after the other. *)
Inductive served (to_python : option string -> option bool)
    (full_clean : database -> TemplateSubscription -> option (list string))
    (db0 : database) : database -> Prop :=
| served_start : served to_python full_clean db0 db0
| served_post db request :
    served to_python full_clean db0 db ->
    served to_python full_clean db0
      (BaseTemplateSubscriptionView.post to_python full_clean db request).1.

End Api.


(** ** migrations/0042_device_key_none.py *)

Module DeviceKey.

(** The keyword arguments of the [key] field of [Device]. *)
Definition blank : bool := true.
Definition default : option string := None.
Definition max_length : nat := 64.
Definition unique : bool := true.

(** A character of a Python [str] is a code point; the strings here range
    over the code points below 256.  [\s] on a [str] pattern matches the
    characters for which [str.isspace] holds: tab to carriage return, the
    separators 28 to 31, space, next line (133) and no-break space (160). *)
Definition is_space (c : ascii) : bool :=
  let n := nat_of_ascii c in
  ((9 <=? n)%nat && (n <=? 13)%nat) || ((28 <=? n)%nat && (n <=? 31)%nat) ||
  (n =? 32)%nat || (n =? 133)%nat || (n =? 160)%nat.

(** The character class [[^\s/\.]]. *)
Definition in_class (c : ascii) : bool :=
  negb (is_space c) && negb (Ascii.eqb c "/") && negb (Ascii.eqb c ".").

Fixpoint all_chars (p : ascii -> bool) (s : string) : bool :=
  match s with
  | EmptyString => true
  | String c s' => p c && all_chars p s'
  end.

(** What is left of [s] after the longest run of class characters. *)
Fixpoint after_run (s : string) : string :=
  match s with
  | EmptyString => EmptyString
  | String c s' => if in_class c then after_run s' else s
  end.

(** [$] without [re.MULTILINE]: the end of the string, or just before a
    line feed that ends the string. *)
Definition at_dollar (rest : string) : bool :=
  String.eqb rest "" || String.eqb rest nl.

(** [re.compile('^[^\s/\.]+$').search(value)]: [^] anchors the match at the
    start, the class is taken at least once, and [$] has to hold where the
    run stops.  The run is the longest one: after a shorter run the next
    character is a class character, where [$] does not hold. *)
Definition regex_search (value : string) : bool :=
  match value with
  | EmptyString => false
  | String c rest => in_class c && at_dollar (after_run rest)
  end.

(** Codes of the validation errors of the field. *)
Inductive key_error := ErrBlank | ErrMaxLength | ErrInvalid | ErrUnique.

(** [MaxLengthValidator(max_length)], which a character field adds. *)
Definition MaxLengthValidator (value : string) : list key_error :=
  if (max_length <? String.length value)%nat then [ErrMaxLength] else [].

(** [RegexValidator(..., code='invalid')]. *)
Definition RegexValidator (value : string) : list key_error :=
  if regex_search value then [] else [ErrInvalid].

(** [Field.validate]: an empty value is an error unless [blank]. *)
Definition validate (value : string) : list key_error :=
  if negb blank && String.eqb value "" then [ErrBlank] else [].

(** [Field.run_validators]: no validator runs on an empty value. *)
Definition run_validators (value : string) : list key_error :=
  if String.eqb value "" then []
  else (MaxLengthValidator value ++ RegexValidator value)%list.

(** The uniqueness check against the keys of the other devices. *)
Definition validate_unique (others : list string) (value : string)
  : list key_error :=
  if unique && bool_decide (value ∈ others) then [ErrUnique] else [].

(** Validation of a key for a device, the other devices having the keys
    [others]: the errors raised, none when the key is accepted. *)
Definition clean_key (others : list string) (value : string) : list key_error :=
  (validate value ++ run_validators value ++ validate_unique others value)%list.

(** The property the validator's message words: no spaces, dots or
    slashes. *)
Definition free_of_spaces_dots_slashes (value : string) : bool :=
  all_chars in_class value.

End DeviceKey.


(** ** Auxiliary notions for the further properties *)

Module Derived.
Import Controller.

(** The checks of [report_status] on a request, for a config with the key
    [key]. *)
Definition report_checks (key : string) (request : Http.request)
  : option Http.Response :=
  first_bad_response (POST request)
    [("key", Exactly key); ("status", AnyOf (map fst STATUS))].

(** What a step of the vpn branch of the create view leaves alone. *)
Definition same_templates (db db' : Api.database) : Prop :=
  Api.templates db' = Api.templates db ∧ Api.tasks db' = Api.tasks db ∧
  Api.subscriptions db' = Api.subscriptions db.

End Derived.


(** ** Concrete tables and requests used as examples *)

Module Examples.
Import Controller.

Definition router : Config :=
  {| c_name := "router"; c_backend := "netjsonconfig.OpenWrt";
     c_key := "s3cret"; c_status := "modified" |}.

Definition configs : gmap string Config := {["d1" := router]}.

Definition get_with (params : list (string * string)) : request :=
  {| method := "GET"; GET := list_to_map params; POST := ∅;
     scheme := "http"; host := "controller.test" |}.

Definition post_with (params : list (string * string)) : request :=
  {| method := "POST"; GET := ∅; POST := list_to_map params;
     scheme := "http"; host := "controller.test" |}.

Definition site : settings :=
  {| REGISTRATION_ENABLED := true; SHARED_SECRET := "shared";
     BACKENDS := [("netjsonconfig.OpenWrt", "OpenWRT");
                  ("netjsonconfig.OpenWisp", "OpenWISP")] |}.

Definition open_template : Api.Template :=
  {| Api.t_name := "Mesh defaults"; Api.t_description := "OLSR for the Mesh";
     Api.t_sharing := "public"; Api.t_key := None; Api.t_type := "generic";
     Api.t_vpn := None; Api.t_other := "" |}.

Definition keyed_template : Api.Template :=
  {| Api.t_name := "Backbone"; Api.t_description := "core links";
     Api.t_sharing := "secret_key"; Api.t_key := Some "k-42";
     Api.t_type := "generic"; Api.t_vpn := None; Api.t_other := "" |}.

Definition library : gmap string Api.Template :=
  {["t1" := open_template; "t2" := keyed_template]}.

Definition as_json : string -> Api.Template -> string :=
  fun uuid t => "{id: " ++ uuid ++ ", name: " ++ Api.t_name t ++ "}".

Definition no_checksum : Config -> string := fun _ => "".
Definition no_archive : Config -> request -> Http.Response :=
  fun _ _ => ControllerResponse "" "application/octet-stream" 200.

(** The device of the router and its config. *)
Definition fleet : registry :=
  {| reg_devices := {["d1" := mkDevice "router" "s3cret"]};
     reg_configs := configs |}.

Definition joining : request :=
  post_with [("secret", "shared"); ("name", "ap-7");
             ("backend", "netjsonconfig.OpenWisp")].

(** A template library with nothing in it but the two templates. *)
Definition shelf : Api.database :=
  {| Api.cas := ∅; Api.certs := ∅; Api.vpns := ∅;
     Api.templates := library; Api.subscriptions := []; Api.tasks := [] |}.

Definition nothing : Api.database :=
  {| Api.cas := ∅; Api.certs := ∅; Api.vpns := ∅; Api.templates := ∅;
     Api.subscriptions := []; Api.tasks := [] |}.

(** Remote data: a generic template under one url, a vpn template under any
    other. *)
Definition remote (url : option string) : Api.template_data :=
  if bool_decide (url = Some "http://library.test/generic") then
    {| Api.d_id := "g1"; Api.d_name := "generic-temp"; Api.d_description := "";
       Api.d_sharing := "import"; Api.d_key := None; Api.d_type := "generic";
       Api.d_other := ""; Api.d_vpn := None |}
  else
    {| Api.d_id := "v1"; Api.d_name := "vpn-temp"; Api.d_description := "";
       Api.d_sharing := "import"; Api.d_key := None; Api.d_type := "vpn";
       Api.d_other := "";
       Api.d_vpn := Some {| Api.vp_id := "vpn1"; Api.vp_name := "tunnel";
                            Api.vp_other := "";
                            Api.vp_ca := ("ca1", Api.mkCa "");
                            Api.vp_cert := ("cert1", "") |} |}.

(** Validation that refuses a primary key already in the table. *)
Definition new_ca (db : Api.database) (ca : string * Api.Ca) : bool :=
  bool_decide (Api.cas db !! ca.1 = None).
Definition new_cert (db : Api.database) (cert : string * Api.Cert) : bool :=
  bool_decide (Api.certs db !! cert.1 = None).
Definition new_vpn (db : Api.database) (vpn : string * Api.Vpn) : bool :=
  bool_decide (Api.vpns db !! vpn.1 = None).
Definition new_template (db : Api.database) (t : string * Api.Template)
  : option (list string) :=
  match Api.templates db !! t.1 with
  | Some _ => Some ["Template with this Id already exists."]
  | None => None
  end.

Definition create_example
  : Api.database -> request -> Api.database * outcome Api.Response :=
  Api.BaseCreateTemplateView.post remote new_ca new_cert new_vpn new_template.

Definition boolean (value : option string) : option bool :=
  match value with
  | None => Some false
  | Some v => if String.eqb v "True" then Some true
              else if String.eqb v "False" then Some false else None
  end.

Definition any_row (db : Api.database) (row : Api.TemplateSubscription)
  : option (list string) := None.

Definition subscribing (flag : string) : request :=
  post_with [("template", "t1"); ("subscriber", "http://subscriber.test");
             ("subscribe", flag)].

(** Requests. *)
Definition bare : request := get_with [].
Definition with_key (key : string) : request := get_with [("key", key)].
Definition reporting (key status : string) : request :=
  post_with [("key", key); ("status", status)].
Definition searching : request := get_with [("name", "MESH")].
Definition importing (url : string) : request := post_with [("url", url)].

Definition subscribe_example
  : Api.database -> request -> Api.database * outcome Api.Response :=
  Api.BaseTemplateSubscriptionView.post boolean any_row.

(** The shelf after a first subscription to t1. *)
Definition subscribed : Api.database :=
  (subscribe_example shelf (subscribing "True")).1.

(** Data for the further properties. *)
Definition searching_lower : request := get_with [("name", "mesh")].

(** A table in which the id of the remote vpn template is taken. *)
Definition taken : Api.database :=
  {| Api.cas := ∅; Api.certs := ∅; Api.vpns := ∅;
     Api.templates := {["v1" := open_template]};
     Api.subscriptions := []; Api.tasks := [] |}.

Definition never_valid {R} (db : Api.database) (row : string * R) : bool :=
  false.

Definition tunnel : Api.Vpn := Api.mkVpn "tunnel" "ca0" "cert0" "".

Definition with_tunnel : Api.database :=
  {| Api.cas := ∅; Api.certs := ∅; Api.vpns := {["old" := tunnel]};
     Api.templates := ∅; Api.subscriptions := []; Api.tasks := [] |}.

Definition twice : Api.database :=
  {| Api.cas := ∅; Api.certs := ∅; Api.vpns := ∅;
     Api.templates := library;
     Api.subscriptions :=
       [Api.mkTemplateSubscription "t1" (Some "http://subscriber.test") true;
        Api.mkTemplateSubscription "t1" (Some "http://subscriber.test") false];
     Api.tasks := [] |}.

Definition synchronizing (template_id : string) : request :=
  post_with [("template_id", template_id)].

Definition library_url (t : Api.Template) : option string :=
  Some ("http://library.test/" ++ Api.t_name t).

(** Validation that refuses a public template and marks the others as
    synchronized. *)
Definition recheck (db : Api.database) (t : string * Api.Template)
  : list string + Api.Template :=
  if String.eqb (Api.t_sharing t.2) "public"
  then inl ["Only imported templates are synchronized."]
  else inr (Api.mkTemplate (Api.t_name t.2) (Api.t_description t.2)
              (Api.t_sharing t.2) (Api.t_key t.2) (Api.t_type t.2)
              (Api.t_vpn t.2) "synchronized").

Definition sync_example
  : Api.database -> request -> Api.database * outcome Api.Response :=
  Api.BaseTemplateSynchronizationView.post library_url recheck.

Definition sixty_five : string :=
  "aaaaaaaaaaaaaaaaaaaaaaaaaaaaaaaaaaaaaaaaaaaaaaaaaaaaaaaaaaaaaaaaa".

End Examples.


(** * Properties *)

(** ** The check-in protocol *)

Section ControllerProperties.
Import Controller.

Lemma require_http_methods_same {A} m request
    (refused : Http.Response -> A) view :
  method request = m -> require_http_methods [m] request refused view = view.
Proof.
  intros Hm. unfold require_http_methods.
  rewrite bool_decide_eq_true_2; [done|]. rewrite Hm. apply list_elem_of_here.
Qed.

(** A missing or different value is refused with status 403. *)
Lemma forbid_unallowed_wrong params param v :
  params !! param ≠ Some v ->
  forbid_unallowed params param (Exactly v)
  = Some (ControllerResponse "" "text/plain" 403).
Proof.
  intros Hne. unfold forbid_unallowed.
  destruct (params !! param) as [value|] eqn:E; [|done].
  simpl. case_bool_decide; [congruence | done].
Qed.

Lemma forbid_unallowed_right params param v :
  params !! param = Some v -> forbid_unallowed params param (Exactly v) = None.
Proof.
  intros E. unfold forbid_unallowed. rewrite E. simpl.
  by rewrite bool_decide_eq_true_2.
Qed.

Lemma forbid_unallowed_outside params param v vs :
  params !! param = Some v -> v ∉ vs ->
  forbid_unallowed params param (AnyOf vs)
  = Some (ControllerResponse "" "text/plain" 403).
Proof.
  intros E Hout. unfold forbid_unallowed. rewrite E. simpl.
  by rewrite bool_decide_eq_false_2.
Qed.

Lemma forbid_unallowed_inside params param v vs :
  params !! param = Some v -> v ∈ vs ->
  forbid_unallowed params param (AnyOf vs) = None.
Proof.
  intros E Hin. unfold forbid_unallowed. rewrite E. simpl.
  by rewrite bool_decide_eq_true_2.
Qed.

Lemma forbid_unallowed_status params param allowed r :
  forbid_unallowed params param allowed = Some r -> status_code r = 403.
Proof.
  unfold forbid_unallowed. intros H.
  destruct (params !! param); [destruct (permits _ _)|]; by simplify_eq.
Qed.

Lemma first_bad_response_status params required r :
  first_bad_response params required = Some r -> status_code r = 403.
Proof.
  induction required as [|[key value] rest IH]; simpl; [done|].
  destruct (forbid_unallowed params key value) eqn:E.
  - intros [= <-]. by eapply forbid_unallowed_status.
  - exact IH.
Qed.

(** A rejected report leaves the table as it was. *)
Lemma report_status_rejected db request pk :
  http_status (report_status db request pk).2 ≠ 200 ->
  (report_status db request pk).1 = db.
Proof.
  unfold report_status, require_http_methods, get_config_or_404.
  case_bool_decide; [|done].
  destruct (db !! pk); [|done].
  destruct (first_bad_response _ _); [done|]. simpl. done.
Qed.

(** C1 (as amended): for an existing config, a checksum or download GET and
    a report-status POST whose [key] parameter is missing or differs from the
    config's key get status 403, the report leaving the table unchanged; for
    an id without a config each of the three gets 404 whatever key it
    carries. *)
Theorem key_enforcement (config_checksum : Config -> string)
    (send_config : Config -> request -> Http.Response) db pk config :
  db !! pk = Some config ->
  (∀ request, method request = "GET" ->
     GET request !! "key" ≠ Some (c_key config) ->
     http_status (checksum config_checksum db request pk) = 403 ∧
     http_status (download_config send_config db request pk) = 403) ∧
  (∀ request, method request = "POST" ->
     POST request !! "key" ≠ Some (c_key config) ->
     http_status (report_status db request pk).2 = 403 ∧
     (report_status db request pk).1 = db) ∧
  (∀ request pk', db !! pk' = None ->
     (method request = "GET" ->
        http_status (checksum config_checksum db request pk') = 404 ∧
        http_status (download_config send_config db request pk') = 404) ∧
     (method request = "POST" ->
        http_status (report_status db request pk').2 = 404)).
Proof.
  intros Hpk. split_and!.
  - intros request Hm Hkey. unfold checksum, download_config.
    rewrite !require_http_methods_same by done.
    unfold get_config_or_404. rewrite Hpk.
    by rewrite (forbid_unallowed_wrong _ _ _ Hkey).
  - intros request Hm Hkey.
    assert (http_status (report_status db request pk).2 = 403) as H403.
    { unfold report_status. rewrite require_http_methods_same by done.
      unfold get_config_or_404. rewrite Hpk. simpl.
      by rewrite (forbid_unallowed_wrong _ _ _ Hkey). }
    split; [done|]. apply report_status_rejected. by rewrite H403.
  - intros request pk' Hnone. split; intros Hm.
    + unfold checksum, download_config.
      rewrite !require_http_methods_same by done.
      unfold get_config_or_404. by rewrite Hnone.
    + unfold report_status. rewrite require_http_methods_same by done.
      unfold get_config_or_404. by rewrite Hnone.
Qed.

(** C3: a report-status POST for an existing config whose [status] value is
    none of modified, applied, error gets status 403 and leaves the table,
    hence the stored status, unchanged. *)
Theorem status_allow_list db request pk config s :
  db !! pk = Some config ->
  method request = "POST" ->
  POST request !! "status" = Some s ->
  s ≠ "modified" -> s ≠ "applied" -> s ≠ "error" ->
  http_status (report_status db request pk).2 = 403 ∧
  (report_status db request pk).1 = db ∧
  (report_status db request pk).1 !! pk = Some config.
Proof.
  intros Hpk Hm Hs H1 H2 H3.
  assert (http_status (report_status db request pk).2 = 403) as H403.
  { unfold report_status. rewrite require_http_methods_same by done.
    unfold get_config_or_404. rewrite Hpk. simpl.
    destruct (forbid_unallowed (POST request) "key" _) eqn:Ekey.
    - simpl. by eapply forbid_unallowed_status.
    - rewrite (forbid_unallowed_outside _ _ s); [done..|].
      simpl. rewrite !elem_of_cons, elem_of_nil. tauto. }
  assert ((report_status db request pk).1 = db) as Hdb.
  { apply report_status_rejected. by rewrite H403. }
  by rewrite Hdb.
Qed.

(** C4: a report-status POST for an existing config with the config's key
    and a status among modified, applied, error stores that status on the
    config and answers 200, text/plain, with a body whose current-status
    line carries the stored status. *)
Theorem report_status_success db request pk config s :
  db !! pk = Some config ->
  method request = "POST" ->
  POST request !! "key" = Some (c_key config) ->
  POST request !! "status" = Some s ->
  s = "modified" ∨ s = "applied" ∨ s = "error" ->
  report_status db request pk
  = (<[pk := with_status config s]> db,
     Returns {| status_code := 200; content_type := "text/plain";
                content := "report-result: success" ++ nl ++
                           "current-status: " ++ s ++ nl |}) ∧
  c_status <$> (report_status db request pk).1 !! pk = Some s.
Proof.
  intros Hpk Hm Hkey Hs Hin.
  assert (report_status db request pk
          = (<[pk := with_status config s]> db,
             Returns {| status_code := 200; content_type := "text/plain";
                        content := "report-result: success" ++ nl ++
                                   "current-status: " ++ s ++ nl |})) as ->.
  { unfold report_status. rewrite require_http_methods_same by done.
    unfold get_config_or_404. rewrite Hpk. simpl.
    rewrite (forbid_unallowed_right _ _ _ Hkey).
    rewrite (forbid_unallowed_inside _ _ s); [|done|].
    - by rewrite Hs.
    - simpl. rewrite !elem_of_cons. tauto. }
  split; [done|]. simpl. by rewrite lookup_insert_eq.
Qed.

(** The identity [create] picks is under no row, and its key is the key
    of no device and of no config. *)
Lemma fresh_id_unused reg :
  reg_devices reg !! fresh (ids_in_use reg) = None ∧
  reg_configs reg !! fresh (ids_in_use reg) = None.
Proof.
  pose proof (is_fresh (ids_in_use reg)) as Hfresh.
  unfold ids_in_use in Hfresh at 2.
  apply not_elem_of_union in Hfresh as [Hd Hc].
  by rewrite <- !not_elem_of_dom.
Qed.

Lemma fresh_key_unused reg :
  (∀ pk device, reg_devices reg !! pk = Some device ->
     d_key device ≠ fresh (keys_in_use reg)) ∧
  (∀ pk config, reg_configs reg !! pk = Some config ->
     c_key config ≠ fresh (keys_in_use reg)).
Proof.
  pose proof (is_fresh (keys_in_use reg)) as Hfresh.
  unfold keys_in_use in Hfresh at 2.
  apply not_elem_of_union in Hfresh as [Hd Hc].
  split.
  - intros pk device Hpk Hkey. apply Hd, elem_of_map_img. exists pk.
    by rewrite lookup_fmap, Hpk, <- Hkey.
  - intros pk config Hpk Hkey. apply Hc, elem_of_map_img. exists pk.
    by rewrite lookup_fmap, Hpk, <- Hkey.
Qed.

(** C2: with registration disabled there is no register view; with
    registration enabled, a POST carrying the shared secret, a name and a
    backend of the allow-list adds one device and one config, the device
    with that name, the config with that backend, under an identity that
    no row had and with a key that no device and no config had, and answers
    201, text/plain, with a body giving that identity and that key. *)
Theorem register_creates st reg request name backend :
  (REGISTRATION_ENABLED st = false -> register st = None) ∧
  (REGISTRATION_ENABLED st = true ->
   method request = "POST" ->
   POST request !! "secret" = Some (SHARED_SECRET st) ->
   POST request !! "name" = Some name ->
   POST request !! "backend" = Some backend ->
   backend ∈ map fst (BACKENDS st) ->
   ∃ view id key, register st = Some view ∧
     view reg request
     = ({| reg_devices := <[id := {| d_name := name; d_key := key |}]>
                        (reg_devices reg);
           reg_configs := <[id := {| c_name := name; c_backend := backend;
                                 c_key := key; c_status := "modified" |}]>
                        (reg_configs reg) |},
        Returns {| status_code := 201; content_type := "text/plain";
                   content := "registration-result: success" ++ nl ++
                              "uuid: " ++ id ++ nl ++
                              "key: " ++ key ++ nl |}) ∧
     (reg_devices reg !! id = None ∧ reg_configs reg !! id = None) ∧
     (∀ pk device, reg_devices reg !! pk = Some device -> d_key device ≠ key) ∧
     (∀ pk config, reg_configs reg !! pk = Some config -> c_key config ≠ key) ∧
     size (reg_devices (view reg request).1) = S (size (reg_devices reg)) ∧
     size (reg_configs (view reg request).1) = S (size (reg_configs reg))).
Proof.
  split.
  - intros Hoff. unfold register. by rewrite Hoff.
  - intros Hon Hm Hsecret Hname Hbackend Hin.
    exists (register_view st), (fresh (ids_in_use reg)),
      (fresh (keys_in_use reg)).
    split; [unfold register; by rewrite Hon|].
    pose proof (fresh_id_unused reg) as [Hdevice Hconfig].
    pose proof (fresh_key_unused reg) as [Hdkey Hckey].
    assert (first_bad_response (POST request)
              [("secret", Exactly (SHARED_SECRET st)); ("name", Anything);
               ("backend", AnyOf (map fst (BACKENDS st)))] = None)
      as Hpassed.
    { simpl. rewrite (forbid_unallowed_right _ _ _ Hsecret).
      unfold forbid_unallowed at 1. rewrite Hname. simpl.
      by rewrite (forbid_unallowed_inside _ _ backend). }
    unfold register_view. rewrite require_http_methods_same by done.
    cbv zeta. rewrite Hpassed, Hname, Hbackend. unfold create. simpl.
    split_and!; [done..| |].
    + by rewrite map_size_insert_None.
    + by rewrite map_size_insert_None.
Qed.

End ControllerProperties.

(** ** The template API: detail and list *)

Section TemplateProperties.
Import Api.

Lemma truthy_true value :
  truthy value = true ↔ ∃ k, value = Some k ∧ k ≠ "".
Proof.
  unfold truthy. destruct value as [k|].
  - rewrite negb_true_iff, String.eqb_neq. split.
    + intros Hk. by exists k.
    + by intros (? & [= <-] & Hk).
  - split; [done | by intros (? & [=] & _)].
Qed.

Lemma truthy_false value :
  truthy value = false ↔ value = None ∨ value = Some "".
Proof.
  unfold truthy. destruct value as [k|].
  - rewrite negb_false_iff, String.eqb_eq. split.
    + intros ->. by right.
    + by intros [[=] | [= ->]].
  - split; [by left | done].
Qed.

(** What the lookup of [BaseTemplateDetailView.get] amounts to. *)
Lemma detail_get_unfold serializer db request uuid :
  BaseTemplateDetailView.get serializer db request uuid =
  match db !! uuid with
  | Some t =>
      if (if truthy (GET request !! "key")
          then bool_decide (t_sharing t = "secret_key") &&
               bool_decide (t_key t = GET request !! "key")
          else bool_decide (t_sharing t = "public"))
      then Returns {| data := Serialized (serializer uuid t); status := 200 |}
      else Raises Http404
  | None => Raises Http404
  end.
Proof.
  unfold BaseTemplateDetailView.get, get_object_or_404, satisfies.
  destruct (truthy (GET request !! "key")) eqn:Ekey; simpl.
  - apply truthy_true in Ekey as (k & -> & _).
    destruct (db !! uuid) as [t|]; [|done].
    by destruct (bool_decide (t_sharing t = "secret_key")),
                (bool_decide (t_key t = Some k)).
  - destruct (db !! uuid) as [t|]; [|done].
    rewrite andb_true_r. by destruct (bool_decide (t_sharing t = "public")).
Qed.

(** C6 (as amended): a detail GET answers 200 with the serialized template
    when the request has no key (or an empty one) and the template is
    public, or when it has a non-empty key and the template is shared by
    secret_key with that key; in every other case it answers 404. *)
Theorem detail_sharing_rules serializer db request uuid :
  (∀ t, db !! uuid = Some t -> t_sharing t = "public" ->
     GET request !! "key" = None ∨ GET request !! "key" = Some "" ->
     BaseTemplateDetailView.get serializer db request uuid
     = Returns {| data := Serialized (serializer uuid t); status := 200 |}) ∧
  (∀ t k, db !! uuid = Some t -> t_sharing t = "secret_key" ->
     GET request !! "key" = Some k -> k ≠ "" -> t_key t = Some k ->
     BaseTemplateDetailView.get serializer db request uuid
     = Returns {| data := Serialized (serializer uuid t); status := 200 |}) ∧
  (¬ (∃ t, db !! uuid = Some t ∧
        ((t_sharing t = "public" ∧
          (GET request !! "key" = None ∨ GET request !! "key" = Some "")) ∨
         (t_sharing t = "secret_key" ∧
          ∃ k, GET request !! "key" = Some k ∧ k ≠ "" ∧
               t_key t = Some k))) ->
   BaseTemplateDetailView.get serializer db request uuid = Raises Http404 ∧
   http_status (BaseTemplateDetailView.get serializer db request uuid) = 404).
Proof.
  rewrite detail_get_unfold. split_and!.
  - intros t Ht Hpublic Hkey. rewrite Ht.
    apply truthy_false in Hkey. rewrite Hkey.
    by rewrite bool_decide_eq_true_2.
  - intros t k Ht Hsecret Hkey Hk Htk. rewrite Ht.
    assert (truthy (GET request !! "key") = true) as ->
      by (apply truthy_true; eauto).
    rewrite Hkey. by rewrite !bool_decide_eq_true_2.
  - intros Hno.
    destruct (db !! uuid) as [t|] eqn:Ht; [|done].
    destruct (truthy (GET request !! "key")) eqn:Ekey.
    + apply truthy_true in Ekey as (k & Hkey & Hk).
      do 2 case_bool_decide; simpl; try done.
      destruct Hno. exists t. split; [done|]. right. split; [done|].
      exists k. by rewrite <- Hkey.
    + apply truthy_false in Ekey.
      case_bool_decide; [|done].
      destruct Hno. exists t. split; [done|]. by left.
Qed.

(** C10: for a public template, a detail GET with a non-empty key answers
    404, while the same request without the key parameter answers 200. *)
Theorem public_template_with_key serializer db request uuid t k :
  db !! uuid = Some t -> t_sharing t = "public" ->
  GET request !! "key" = Some k -> k ≠ "" ->
  BaseTemplateDetailView.get serializer db request uuid = Raises Http404 ∧
  http_status (BaseTemplateDetailView.get serializer db request uuid) = 404 ∧
  http_status
    (BaseTemplateDetailView.get serializer db
       {| method := method request; GET := delete "key" (GET request);
          POST := POST request; scheme := scheme request;
          host := host request |} uuid) = 200.
Proof.
  intros Ht Hpublic Hkey Hk. rewrite !detail_get_unfold, Ht. simpl.
  rewrite lookup_delete_eq. simpl.
  assert (truthy (GET request !! "key") = true) as ->
    by (apply truthy_true; eauto).
  rewrite (bool_decide_eq_false_2 (t_sharing t = "secret_key"))
    by (rewrite Hpublic; discriminate).
  rewrite (bool_decide_eq_true_2 (t_sharing t = "public")) by done.
  done.
Qed.

Lemma starts_with_spec p s : starts_with p s = true ↔ ∃ b, s = p ++ b.
Proof.
  revert s. induction p as [|a p IH]; intros s; simpl.
  - split; [intros _; by exists s | done].
  - destruct s as [|b s]; [split; [done | intros [? [=]]]|].
    rewrite andb_true_iff, IH. split.
    + intros [Hab [r ->]]. apply Ascii.eqb_eq in Hab as ->. by exists r.
    + intros [r [= -> ->]]. split; [apply Ascii.eqb_refl | by exists r].
Qed.

Lemma contains_spec s p : contains s p = true ↔ is_substring p s.
Proof.
  unfold is_substring. induction s as [|c s IH]; simpl.
  - rewrite orb_false_r, starts_with_spec. split.
    + intros [b Hb]. by exists "", b.
    + intros ([|? ?] & b & Hb); [by exists b | discriminate Hb].
  - rewrite orb_true_iff, IH, starts_with_spec. split.
    + intros [[b Hb] | (a & b & ->)];
        [by exists "", b | by exists (String c a), b].
    + intros ([|c' a] & b & Hb); [left; by exists b|].
      right. injection Hb as -> ->. by exists a, b.
Qed.

Lemma icontains_spec field p :
  icontains field p = true ↔ is_substring (lower p) (lower field).
Proof. apply contains_spec. Qed.

Lemma icontains_empty field : icontains field "" = true.
Proof. apply icontains_spec. by exists "", (lower field). Qed.

Lemma lookup_qs_filter cond (qs : gmap string Template) pk t :
  qs_filter cond qs !! pk = Some t ↔ qs !! pk = Some t ∧ cond t = true.
Proof. unfold qs_filter. by rewrite map_lookup_filter_Some. Qed.

(** C7: the rows of the list GET are exactly the public templates, those
    whose name contains the [name] value when one is given and whose
    description contains the [des] value when one is given, both without
    regard to case; the response serializes these rows. *)
Theorem list_public_templates serializer queryset request :
  (∀ pk t,
     BaseListTemplateView.get_queryset queryset request !! pk = Some t ↔
     queryset !! pk = Some t ∧ t_sharing t = "public" ∧
     (∀ name, GET request !! "name" = Some name ->
        is_substring (lower name) (lower (t_name t))) ∧
     (∀ des, GET request !! "des" = Some des ->
        is_substring (lower des) (lower (t_description t)))) ∧
  BaseListTemplateView.get serializer queryset request
  = Returns {| data := SerializedList
                         (map (fun row => serializer row.1 row.2)
                              (map_to_list
                                 (BaseListTemplateView.get_queryset
                                    queryset request)));
               status := 200 |}.
Proof.
  split; [|done]. intros pk t. unfold BaseListTemplateView.get_queryset.
  destruct (GET request !! "name") as [name|] eqn:Ename,
           (GET request !! "des") as [des|] eqn:Edes; cbn -[truthy].
  - rewrite !andb_false_r.
    rewrite !(lookup_qs_filter _ _ pk t), bool_decide_eq_true, andb_true_iff,
      !icontains_spec.
    split.
    + intros ((? & ?) & ? & ?). split_and!; [done..| |]; by intros ? [= <-].
    + intros (? & ? & Hn & Hd). split_and!; [done..| |]; eauto.
  - rewrite andb_true_r. destruct (truthy (Some name)) eqn:Etruthy.
    + cbn.
      rewrite !(lookup_qs_filter _ _ pk t), bool_decide_eq_true, icontains_spec.
      split.
      * intros ((? & ?) & ?).
        split_and!; [done..| |]; [by intros ? [= <-] | done].
      * intros (? & ? & Hn & _). split_and!; [done..|]; eauto.
    + apply truthy_false in Etruthy as [[=] | [= ->]]. cbn.
      rewrite (lookup_qs_filter _ _ pk t), bool_decide_eq_true. split.
      * intros (? & ?). split_and!; [done..| |]; [|done].
        intros ? [= <-]. apply icontains_spec, icontains_empty.
      * intros (? & ? & _). done.
  - rewrite andb_true_r. destruct (truthy (Some des)) eqn:Etruthy.
    + cbn.
      rewrite !(lookup_qs_filter _ _ pk t), bool_decide_eq_true, icontains_spec.
      split.
      * intros ((? & ?) & ?).
        split_and!; [done..| |]; [done | by intros ? [= <-]].
      * intros (? & ? & _ & Hd). split_and!; [done..|]; eauto.
    + apply truthy_false in Etruthy as [[=] | [= ->]]. cbn.
      rewrite (lookup_qs_filter _ _ pk t), bool_decide_eq_true. split.
      * intros (? & ?). split_and!; [done..| |]; [done|].
        intros ? [= <-]. apply icontains_spec, icontains_empty.
      * intros (? & ? & _). done.
  - cbn. rewrite (lookup_qs_filter _ _ pk t), bool_decide_eq_true. split.
    + intros (? & ?). by split_and!.
    + intros (? & ? & _). done.
Qed.

End TemplateProperties.

(** ** The template API: external templates and subscriptions *)

Section CreateProperties.
Import Api Api.BaseCreateTemplateView.

Lemma save_or_report_valid template_full_clean db template import_url
    request :
  template_full_clean db template = None ->
  save_or_report template_full_clean db template import_url request
  = (saved db template import_url request,
     Returns {| data := NoData; status := 200 |}).
Proof. intros Hok. unfold save_or_report, save_template. by rewrite Hok. Qed.

Lemma save_or_report_invalid template_full_clean db template import_url
    request messages :
  template_full_clean db template = Some messages ->
  save_or_report template_full_clean db template import_url request
  = (db, Returns {| data := ErrorDict {["template_errors" := messages]};
                    status := 500 |}).
Proof. intros Hko. unfold save_or_report, save_template. by rewrite Hko. Qed.

Lemma saved_lookup db template import_url request :
  templates (saved db template import_url request) !! template.1
  = Some template.2.
Proof. simpl. apply lookup_insert_eq. Qed.

(** C8: a create-external-template POST answers 200, the template being
    saved, when the template built from the fetched data passes validation,
    and answers 500 with the validation messages under template_errors,
    nothing being saved, when it fails validation; for a generic template
    and for a vpn template (once its ca, cert and vpn have been resolved)
    alike. *)
Theorem create_external_template
    (get_remote_template_data : option string -> template_data)
    (ca_full_clean : database -> string * Ca -> bool)
    (cert_full_clean : database -> string * Cert -> bool)
    (vpn_full_clean : database -> string * Vpn -> bool)
    (template_full_clean :
       database -> string * Template -> option (list string))
    (db : database) (request : Http.request) :
  let post :=
    BaseCreateTemplateView.post get_remote_template_data ca_full_clean
      cert_full_clean vpn_full_clean template_full_clean in
  let import_url := POST request !! "url" in
  let data := get_remote_template_data import_url in
  (d_type data ≠ "vpn" -> d_vpn data = None ->
   let template := template_model data None in
   (template_full_clean db template = None ->
      post db request = (saved db template import_url request,
                         Returns {| data := NoData; status := 200 |}) ∧
      templates (post db request).1 !! template.1 = Some template.2) ∧
   (∀ messages, template_full_clean db template = Some messages ->
      post db request
      = (db, Returns {| data := ErrorDict {["template_errors" := messages]};
                        status := 500 |}))) ∧
  (d_type data = "vpn" ->
   ∀ vp db1 vpn, d_vpn data = Some vp ->
   prepare_vpn ca_full_clean cert_full_clean vpn_full_clean db vp
   = (db1, inr vpn) ->
   let template := template_model data (Some vpn.1) in
   (template_full_clean db1 template = None ->
      post db request = (saved db1 template import_url request,
                         Returns {| data := NoData; status := 200 |}) ∧
      templates (post db request).1 !! template.1 = Some template.2) ∧
   (∀ messages, template_full_clean db1 template = Some messages ->
      post db request
      = (db1, Returns {| data := ErrorDict {["template_errors" := messages]};
                         status := 500 |}))).
Proof.
  intros post import_url data. subst post. unfold BaseCreateTemplateView.post.
  fold import_url. fold data. split.
  - intros Hgeneric Hvpn.
    rewrite bool_decide_eq_false_2 by done. rewrite Hvpn. split.
    + intros Hok. rewrite (save_or_report_valid _ _ _ _ _ Hok).
      split; [done | apply saved_lookup].
    + intros messages Hko. by rewrite (save_or_report_invalid _ _ _ _ _ _ Hko).
  - intros Hvpn vp db1 vpn Hvp Hprepare.
    rewrite bool_decide_eq_true_2 by done. rewrite Hvp, Hprepare. split.
    + intros Hok. rewrite (save_or_report_valid _ _ _ _ _ Hok).
      split; [done | apply saved_lookup].
    + intros messages Hko. by rewrite (save_or_report_invalid _ _ _ _ _ _ Hko).
Qed.

End CreateProperties.

Section SubscriptionProperties.
Import Api.

Lemma same_pair_pair_of template subscriber row :
  same_pair template subscriber row ↔ pair_of row = (template, subscriber).
Proof.
  unfold same_pair, pair_of. split; [by intros [-> ->] | by intros [= -> ->]].
Qed.

Lemma subscription_get_inr template subscriber rows i row :
  subscription_get template subscriber rows = inr (i, row) ->
  rows !! i = Some row ∧ same_pair template subscriber row.
Proof.
  unfold subscription_get.
  destruct (list_find _ rows) as [[j y]|] eqn:Efind; [|done].
  destruct (list_find _ (drop (S j) rows)); [done|].
  intros [= -> ->]. apply list_find_Some in Efind. tauto.
Qed.

Lemma subscription_get_missing template subscriber rows :
  subscription_get template subscriber rows = inl DoesNotExist ↔
  ∀ row, row ∈ rows -> ¬ same_pair template subscriber row.
Proof.
  unfold subscription_get.
  destruct (list_find _ rows) as [[j y]|] eqn:Efind.
  - split.
    + by destruct (list_find _ (drop (S j) rows)) as [[? ?]|].
    + intros Hnone. apply list_find_Some in Efind as (Hj & Hy & _).
      destruct (Hnone y); [by eapply list_elem_of_lookup_2 | done].
  - apply list_find_None in Efind. by rewrite Forall_forall in Efind.
Qed.

(** With one row per pair at most, the lookup finds the row of the pair. *)
Lemma subscription_get_found template subscriber rows i row :
  NoDup (pair_of <$> rows) ->
  rows !! i = Some row -> same_pair template subscriber row ->
  subscription_get template subscriber rows = inr (i, row).
Proof.
  intros Hnodup Hi Hrow. unfold subscription_get.
  assert (∀ j y, rows !! j = Some y ->
                 same_pair template subscriber y -> j = i) as Hunique.
  { intros j y Hj Hy. eapply (NoDup_lookup _ j i); [exact Hnodup | |].
    - rewrite list_lookup_fmap, Hj. simpl. reflexivity.
    - rewrite list_lookup_fmap, Hi. simpl.
      apply same_pair_pair_of in Hrow, Hy. by rewrite Hrow, Hy. }
  destruct (list_find _ rows) as [[j y]|] eqn:Efind.
  - apply list_find_Some in Efind as (Hj & Hy & _).
    assert (j = i) as -> by eauto. assert (y = row) as -> by congruence.
    destruct (list_find _ (drop (S i) rows)) as [[k z]|] eqn:Erest; [|done].
    apply list_find_Some in Erest as (Hk & Hz & _).
    rewrite lookup_drop in Hk. apply Hunique in Hk; [lia | done].
  - apply list_find_None in Efind. rewrite Forall_forall in Efind.
    destruct (Efind row); [by eapply list_elem_of_lookup_2 | done].
Qed.

(** One POST keeps one row per pair at most. *)
Lemma subscription_post_keeps to_python full_clean db request :
  NoDup (pair_of <$> subscriptions db) ->
  NoDup (pair_of <$>
           subscriptions
             (BaseTemplateSubscriptionView.post to_python full_clean
                db request).1).
Proof.
  intros Hnodup. unfold BaseTemplateSubscriptionView.post.
  destruct (POST request !! "template") as [template|]; [|done].
  destruct (templates db !! template); [|done].
  destruct (subscription_get _ _ _) as [e|[i notification]] eqn:Eget.
  - destruct e; try done.
    destruct (to_python _) as [flag|]; [|done].
    destruct (full_clean _ _); [done|]. simpl.
    rewrite fmap_app. apply NoDup_app.
    split_and!; [done| |apply NoDup_singleton].
    cbn. intros pair Hin Heq. apply list_elem_of_singleton in Heq as ->.
    apply list_elem_of_fmap in Hin as (row & Hpair & Hrow).
    apply (proj1 (subscription_get_missing _ _ _) Eget row Hrow).
    by apply same_pair_pair_of.
  - destruct (to_python _) as [flag|]; [|done]. simpl.
    apply subscription_get_inr in Eget as [Hi _].
    rewrite list_fmap_insert. rewrite list_insert_id; [done|].
    by rewrite list_lookup_fmap, Hi.
Qed.

(** C5: in every table the subscription view leads to from an empty one, no
    two subscriptions have the same (template, subscriber) pair; a POST for
    a pair that has a row sets the subscribe flag of that row in place, and
    the table grows only by one row for a pair that had none. *)
Theorem one_subscription_per_pair to_python full_clean db0 db :
  subscriptions db0 = [] ->
  served to_python full_clean db0 db ->
  NoDup (pair_of <$> subscriptions db) ∧
  ∀ request,
    (∀ template i row flag,
       POST request !! "template" = Some template ->
       is_Some (templates db !! template) ->
       subscriptions db !! i = Some row ->
       same_pair template (POST request !! "subscriber") row ->
       to_python (POST request !! "subscribe") = Some flag ->
       BaseTemplateSubscriptionView.post to_python full_clean db request
       = (set_subscriptions
            (fun rows => <[i := {| s_template := s_template row;
                                   s_subscriber := s_subscriber row;
                                   s_subscribe := flag |}]> rows) db,
          Returns {| data := NoData; status := 200 |}) ∧
       length (subscriptions
                 (BaseTemplateSubscriptionView.post to_python full_clean
                    db request).1)
       = length (subscriptions db)) ∧
    (length (subscriptions
               (BaseTemplateSubscriptionView.post to_python full_clean
                  db request).1)
     ≠ length (subscriptions db) ->
     ∃ template flag,
       POST request !! "template" = Some template ∧
       (∀ row, row ∈ subscriptions db ->
          ¬ same_pair template (POST request !! "subscriber") row) ∧
       subscriptions
         (BaseTemplateSubscriptionView.post to_python full_clean db request).1
       = (subscriptions db ++
          [{| s_template := template;
              s_subscriber := POST request !! "subscriber";
              s_subscribe := flag |}])%list).
Proof.
  intros Hempty Hserved.
  assert (NoDup (pair_of <$> subscriptions db)) as Hnodup.
  { induction Hserved as [|db request _ IH].
    - rewrite Hempty. apply NoDup_nil_2.
    - by apply subscription_post_keeps. }
  split; [done|]. intros request. split.
  - intros template i row flag Htemplate [t Ht] Hi Hrow Hflag.
    assert (BaseTemplateSubscriptionView.post to_python full_clean db request
            = (set_subscriptions
                 (fun rows => <[i := {| s_template := s_template row;
                                        s_subscriber := s_subscriber row;
                                        s_subscribe := flag |}]> rows) db,
               Returns {| data := NoData; status := 200 |})) as ->.
    { unfold BaseTemplateSubscriptionView.post. rewrite Htemplate, Ht.
      rewrite (subscription_get_found _ _ _ i row) by done.
      by rewrite Hflag. }
    split; [done|]. simpl. apply length_insert.
  - unfold BaseTemplateSubscriptionView.post.
    destruct (POST request !! "template") as [template|]; [|done].
    destruct (templates db !! template); [|done].
    destruct (subscription_get _ _ _) as [e|[i notification]] eqn:Eget.
    + destruct e; try done.
      destruct (to_python _) as [flag|]; [|done].
      destruct (full_clean _ _); [done|]. simpl. intros _.
      exists template, flag. split_and!; [done| |done].
      by apply subscription_get_missing.
    + destruct (to_python _) as [flag|]; [|done]. simpl.
      by rewrite length_insert.
Qed.

End SubscriptionProperties.

(** ** The device key field *)

Section DeviceKeyProperties.
Import DeviceKey.

Lemma at_dollar_spec rest : at_dollar rest = true ↔ rest = "" ∨ rest = nl.
Proof.
  unfold at_dollar. rewrite orb_true_iff, !String.eqb_eq. tauto.
Qed.

Lemma after_run_app run rest :
  all_chars in_class run = true -> after_run (run ++ rest) = after_run rest.
Proof.
  induction run as [|c run IH]; simpl; [done|].
  intros [Hc Hrun]%andb_true_iff. rewrite Hc. by apply IH.
Qed.

Lemma after_run_split s :
  ∃ run, s = run ++ after_run s ∧ all_chars in_class run = true.
Proof.
  induction s as [|c s (run & Hs & Hrun)]; simpl; [by exists ""|].
  destruct (in_class c) eqn:Hc.
  - exists (String c run). split.
    + exact (f_equal (String c) Hs).
    + simpl. by rewrite Hc, Hrun.
  - by exists "".
Qed.

Lemma append_empty_r (s : string) : s ++ "" = s.
Proof.
  induction s as [|c s IH]; [done|].
  change (String c (s ++ "") = String c s). by rewrite IH.
Qed.

(** What the pattern accepts: a non-empty run of class characters, alone or
    followed by one line feed. *)
Lemma regex_search_spec value :
  regex_search value = true ↔
  ∃ body, body ≠ "" ∧ all_chars in_class body = true ∧
          (value = body ∨ value = body ++ nl).
Proof.
  split.
  - destruct value as [|c rest]; simpl; [done|].
    intros [Hc Hrest]%andb_true_iff.
    destruct (after_run_split rest) as (run & Hsplit & Hrun).
    exists (String c run). split_and!; [done | simpl; by rewrite Hc, Hrun |].
    apply at_dollar_spec in Hrest as [Hend | Hend]; rewrite Hend in Hsplit.
    + left. rewrite append_empty_r in Hsplit. by rewrite Hsplit.
    + right. by rewrite Hsplit.
  - intros ([|c body] & Hne & Hall & Hvalue); [done|].
    simpl in Hall. apply andb_true_iff in Hall as [Hc Hbody].
    destruct Hvalue as [-> | ->].
    + simpl. rewrite Hc, <- (append_empty_r body), after_run_app by done. done.
    + change (regex_search (String c (body ++ nl)) = true).
      simpl. rewrite Hc, after_run_app by done. done.
Qed.

Example regex_search_values :
  regex_search "abc" = true ∧ regex_search "" = false ∧
  regex_search "a b" = false ∧ regex_search "a.b" = false ∧
  regex_search "a/b" = false ∧ regex_search (nl ++ "abc") = false ∧
  regex_search ("abc" ++ nl ++ nl) = false.
Proof. vm_compute. by split_and!. Qed.

(** What validation guarantees of a key it accepts, unless the key is
    blank: at most 64 characters, matched by the pattern, and different
    from the keys of the other devices. *)
Lemma clean_key_accepted others value :
  clean_key others value = [] -> value ≠ "" ->
  String.length value <= max_length ∧ regex_search value = true ∧
  value ∉ others.
Proof.
  unfold clean_key, validate, run_validators, MaxLengthValidator,
    RegexValidator, validate_unique. simpl.
  intros Hclean Hne. apply String.eqb_neq in Hne. rewrite Hne in Hclean.
  destruct (Nat.ltb_spec max_length (String.length value)); [done|].
  destruct (regex_search value); [|done].
  case_bool_decide; [done|]. done.
Qed.

(** C9 (the validator on a key that ends with a line feed): the key made of
    abc and a line feed passes the validation of the field, for a device
    that is alone, although it holds a whitespace character. *)
Theorem key_with_line_feed_accepted :
  clean_key [] ("abc" ++ nl) = [] ∧
  regex_search ("abc" ++ nl) = true ∧
  String.length ("abc" ++ nl) = 4 ∧
  free_of_spaces_dots_slashes ("abc" ++ nl) = false ∧
  is_space (ascii_of_nat 10) = true.
Proof. vm_compute. by split_and!. Qed.

End DeviceKeyProperties.

(** ** The properties on concrete tables and requests *)

Section ControllerExamples.
Import Controller Examples.

(** C1 (as stated): the table holds a config under d1 and none under d2; a
    checksum GET with the wrong key gets 403 for d1 and 404 for d2, so the
    answer tells the caller which of the two ids exists. *)
Lemma existence_is_revealed :
  configs !! "d1" = Some router ∧ configs !! "d2" = None ∧
  GET (with_key "guess") !! "key" ≠ Some (c_key router) ∧
  http_status (checksum no_checksum configs (with_key "guess") "d1") = 403 ∧
  http_status (checksum no_checksum configs (with_key "guess") "d2") = 404 ∧
  ¬ conceals_existence (checksum no_checksum).
Proof.
  split_and!; try (vm_compute; congruence).
  intros Hconceals.
  specialize (Hconceals configs (with_key "guess") "d1" "d2" router).
  vm_compute in Hconceals. specialize (Hconceals eq_refl eq_refl).
  assert (403 = 404) as Habs by (apply Hconceals; congruence).
  discriminate Habs.
Qed.

Lemma key_enforcement_witness :
  configs !! "d1" = Some router ∧
  http_status (checksum no_checksum configs bare "d1") = 403 ∧
  http_status (report_status configs (reporting "guess" "applied") "d1").2
  = 403 ∧
  http_status (download_config no_archive configs bare "d2") = 404.
Proof.
  assert (configs !! "d1" = Some router) as Hpk by (vm_compute; reflexivity).
  destruct (key_enforcement no_checksum no_archive configs "d1" router Hpk)
    as (Hget & Hpost & Hnone).
  split_and!.
  - exact Hpk.
  - apply (Hget bare); [reflexivity | vm_compute; congruence].
  - apply (Hpost (reporting "guess" "applied"));
      [reflexivity | vm_compute; congruence].
  - apply (Hnone bare "d2"); [vm_compute; reflexivity | reflexivity].
Defined.

Lemma status_allow_list_witness :
  http_status (report_status configs (reporting "s3cret" "done") "d1").2 = 403 ∧
  (report_status configs (reporting "s3cret" "done") "d1").1 = configs.
Proof.
  destruct (status_allow_list configs (reporting "s3cret" "done") "d1"
              router "done") as (H403 & Hdb & _);
    [vm_compute; reflexivity | reflexivity | vm_compute; reflexivity
    | discriminate | discriminate | discriminate |].
  split; [exact H403 | exact Hdb].
Defined.

Lemma report_status_success_witness :
  c_status <$>
    (report_status configs (reporting "s3cret" "applied") "d1").1 !! "d1"
  = Some "applied".
Proof.
  apply (report_status_success configs (reporting "s3cret" "applied") "d1"
           router "applied");
    [vm_compute; reflexivity | reflexivity | vm_compute; reflexivity
    | vm_compute; reflexivity | right; left; reflexivity].
Defined.

Lemma register_creates_witness :
  ∃ view, register site = Some view ∧
    http_status (view fleet joining).2 = 201 ∧
    size (reg_devices (view fleet joining).1) = 2 ∧
    size (reg_configs (view fleet joining).1) = 2.
Proof.
  destruct (register_creates site fleet joining "ap-7"
              "netjsonconfig.OpenWisp") as [_ Hon].
  destruct Hon as (view & id & key & Hview & Hrun & _ & _ & _ & Hd & Hc);
    [reflexivity | reflexivity | vm_compute; reflexivity
    | vm_compute; reflexivity | vm_compute; reflexivity
    | simpl; rewrite !elem_of_cons; tauto |].
  exists view. split; [exact Hview|]. split_and!.
  - rewrite Hrun. reflexivity.
  - rewrite Hd. vm_compute. reflexivity.
  - rewrite Hc. vm_compute. reflexivity.
Defined.

End ControllerExamples.

Section ApiExamples.
Import Api Examples.

(** C6 (as stated): t1 is a public template, yet the detail GET that
    carries a key is answered 404. *)
Lemma public_template_not_found :
  library !! "t1" = Some open_template ∧
  t_sharing open_template = "public" ∧
  BaseTemplateDetailView.get as_json library (with_key "k-42") "t1"
  = Raises Http404 ∧
  http_status (BaseTemplateDetailView.get as_json library (with_key "k-42") "t1")
  = 404.
Proof. vm_compute. by split_and!. Qed.

Lemma detail_sharing_rules_witness :
  http_status (BaseTemplateDetailView.get as_json library bare "t1") = 200 ∧
  http_status (BaseTemplateDetailView.get as_json library (with_key "k-42") "t2")
  = 200 ∧
  http_status (BaseTemplateDetailView.get as_json library bare "t2") = 404.
Proof.
  split_and!.
  - destruct (detail_sharing_rules as_json library bare "t1")
      as (Hpublic & _ & _).
    rewrite (Hpublic open_template);
      [reflexivity | vm_compute; reflexivity | reflexivity
      | left; vm_compute; reflexivity].
  - destruct (detail_sharing_rules as_json library (with_key "k-42") "t2")
      as (_ & Hsecret & _).
    rewrite (Hsecret keyed_template "k-42");
      [reflexivity | vm_compute; reflexivity | reflexivity
      | vm_compute; reflexivity | discriminate | reflexivity].
  - destruct (detail_sharing_rules as_json library bare "t2")
      as (_ & _ & Hother).
    apply Hother. intros (t & Ht & Hcase). vm_compute in Ht.
    injection Ht as <-. destruct Hcase as [[Hs _] | (_ & k & Hk & _)].
    + discriminate Hs.
    + vm_compute in Hk. discriminate Hk.
Defined.

Lemma public_template_with_key_witness :
  http_status (BaseTemplateDetailView.get as_json library (with_key "x") "t1")
  = 404 ∧
  http_status (BaseTemplateDetailView.get as_json library bare "t1") = 200.
Proof.
  destruct (public_template_with_key as_json library (with_key "x") "t1"
              open_template "x") as (_ & H404 & H200);
    [vm_compute; reflexivity | reflexivity | vm_compute; reflexivity
    | discriminate |].
  split; [exact H404 | exact H200].
Defined.

Lemma list_public_templates_witness :
  BaseListTemplateView.get_queryset library searching !! "t1"
  = Some open_template ∧
  BaseListTemplateView.get_queryset library searching !! "t2" = None.
Proof.
  destruct (list_public_templates as_json library searching) as [Hrows _].
  split.
  - apply Hrows. split_and!.
    + vm_compute. reflexivity.
    + reflexivity.
    + intros name Hname. vm_compute in Hname. injection Hname as <-.
      exists "", " defaults". vm_compute. reflexivity.
    + intros des Hdes. vm_compute in Hdes. discriminate Hdes.
  - destruct (BaseListTemplateView.get_queryset library searching !! "t2")
      as [t|] eqn:Et; [|reflexivity].
    apply Hrows in Et as (Ht & Hpublic & _). vm_compute in Ht.
    injection Ht as <-. discriminate Hpublic.
Defined.

Lemma create_external_template_witness :
  http_status
    (create_example nothing (importing "http://library.test/generic")).2 = 200 ∧
  http_status
    (create_example
       (create_example nothing (importing "http://library.test/generic")).1
       (importing "http://library.test/generic")).2 = 500 ∧
  http_status
    (create_example nothing (importing "http://library.test/vpn")).2 = 200.
Proof.
  unfold create_example. split_and!.
  - pose proof (create_external_template remote new_ca new_cert new_vpn
                  new_template nothing
                  (importing "http://library.test/generic")) as H.
    cbv zeta in H. destruct H as [Hgeneric _].
    destruct Hgeneric as [Hvalid _];
      [vm_compute; discriminate | vm_compute; reflexivity |].
    destruct Hvalid as [-> _]; [vm_compute; reflexivity | reflexivity].
  - set (db := (BaseCreateTemplateView.post remote new_ca new_cert new_vpn
                  new_template nothing
                  (importing "http://library.test/generic")).1).
    pose proof (create_external_template remote new_ca new_cert new_vpn
                  new_template db
                  (importing "http://library.test/generic")) as H.
    cbv zeta in H. destruct H as [Hgeneric _].
    destruct Hgeneric as [_ Hinvalid];
      [vm_compute; discriminate | vm_compute; reflexivity |].
    rewrite (Hinvalid ["Template with this Id already exists."]);
      [reflexivity | vm_compute; reflexivity].
  - pose proof (create_external_template remote new_ca new_cert new_vpn
                  new_template nothing
                  (importing "http://library.test/vpn")) as H.
    cbv zeta in H. destruct H as [_ Hvpn].
    destruct (Hvpn eq_refl
                {| vp_id := "vpn1"; vp_name := "tunnel"; vp_other := "";
                   vp_ca := ("ca1", mkCa ""); vp_cert := ("cert1", "") |}
                {| cas := {["ca1" := mkCa ""]};
                   certs := {["cert1" := mkCert "ca1" ""]};
                   vpns := {["vpn1" := mkVpn "tunnel" "ca1" "cert1" ""]};
                   templates := ∅; subscriptions := []; tasks := [] |}
                ("vpn1", mkVpn "tunnel" "ca1" "cert1" ""))
      as [Hvalid _]; [vm_compute; reflexivity | vm_compute; reflexivity |].
    destruct Hvalid as [-> _]; [vm_compute; reflexivity | reflexivity].
Defined.

Lemma one_subscription_per_pair_witness :
  NoDup (pair_of <$> subscriptions subscribed) ∧
  subscriptions (subscribe_example subscribed (subscribing "False")).1
  = [{| s_template := "t1"; s_subscriber := Some "http://subscriber.test";
        s_subscribe := false |}].
Proof.
  unfold subscribe_example.
  destruct (one_subscription_per_pair boolean any_row shelf subscribed)
    as [Hnodup Hpost]; [reflexivity | apply served_post, served_start |].
  split; [exact Hnodup|].
  destruct (Hpost (subscribing "False")) as [Hupdate _].
  destruct (Hupdate "t1" 0
              {| s_template := "t1";
                 s_subscriber := Some "http://subscriber.test";
                 s_subscribe := true |} false) as [-> _];
    [vm_compute; reflexivity | exists open_template; vm_compute; reflexivity
    | vm_compute; reflexivity | split; vm_compute; reflexivity
    | vm_compute; reflexivity |].
  vm_compute. reflexivity.
Defined.

End ApiExamples.

(** * Further properties of the views *)

(** ** The check-in protocol: methods, frames and composition *)

Section ControllerFurther.
Import Controller Derived.

Lemma require_http_methods_other {A} m request
    (refused : Http.Response -> A) view :
  method request ≠ m ->
  require_http_methods [m] request refused view = refused not_allowed.
Proof.
  intros Hm. unfold require_http_methods.
  rewrite bool_decide_eq_false_2; [done|].
  by intros Heq%list_elem_of_singleton.
Qed.

Lemma forbid_unallowed_None params param allowed :
  forbid_unallowed params param allowed = None ↔
  ∃ v, params !! param = Some v ∧ permits allowed v = true.
Proof.
  unfold forbid_unallowed. destruct (params !! param) as [v|].
  - destruct (permits allowed v) eqn:Hp.
    + split; [by exists v | done].
    + split; [done | intros (? & [= <-] & ?); congruence].
  - split; [done | by intros (? & [=] & _)].
Qed.

Lemma report_status_unfold db request pk :
  report_status db request pk =
  if bool_decide (method request ∈ ["POST"]) then
    match db !! pk with
    | None => (db, Raises Http404)
    | Some config =>
        match report_checks (c_key config) request with
        | Some bad_response => (db, Returns bad_response)
        | None =>
            let s := default "" (POST request !! "status") in
            (<[pk := with_status config s]> db,
             Returns (ControllerResponse
                        ("report-result: success" ++ nl ++
                         "current-status: " ++ s ++ nl) "text/plain" 200))
        end
    end
  else (db, Returns not_allowed).
Proof. reflexivity. Qed.

(** X1: a request with another method than the view's is answered 405
    before anything else: whatever the id and the parameters, and without a
    change of the table. *)
Theorem wrong_method_refused config_checksum send_config st db reg request
    pk :
  (method request ≠ "GET" ->
   checksum config_checksum db request pk = Returns not_allowed ∧
   download_config send_config db request pk = Returns not_allowed) ∧
  (method request ≠ "POST" ->
   report_status db request pk = (db, Returns not_allowed) ∧
   register_view st reg request = (reg, Returns not_allowed)) ∧
  http_status (Returns not_allowed) = 405.
Proof.
  split_and!; [| |done].
  - intros Hm. unfold checksum, download_config.
    by rewrite !require_http_methods_other.
  - intros Hm. unfold report_status, register_view.
    by rewrite !require_http_methods_other.
Qed.

(** X2: for an existing config, a GET with the config's key is answered by
    checksum with 200, text/plain and the config's checksum, and by download
    with the response of send_config for that config. *)
Theorem right_key_served config_checksum send_config db request pk config :
  db !! pk = Some config ->
  method request = "GET" ->
  GET request !! "key" = Some (c_key config) ->
  checksum config_checksum db request pk
  = Returns {| status_code := 200; content_type := "text/plain";
               content := config_checksum config |} ∧
  download_config send_config db request pk
  = Returns (send_config config request).
Proof.
  intros Hpk Hm Hkey. unfold checksum, download_config.
  rewrite !require_http_methods_same by done.
  unfold get_config_or_404. rewrite Hpk.
  by rewrite (proj2 (forbid_unallowed_None _ _ _))
    by (exists (c_key config); split; [done | by apply bool_decide_eq_true_2]).
Qed.

(** X3: report_status neither adds nor removes a config, leaves every other
    config as it is, and changes nothing but the status of the config it is
    about: name, backend and key stay. *)
Theorem report_status_frame db request pk :
  dom (report_status db request pk).1 = dom db ∧
  (∀ pk', pk' ≠ pk -> (report_status db request pk).1 !! pk' = db !! pk') ∧
  (∀ config', (report_status db request pk).1 !! pk = Some config' ->
     ∃ config, db !! pk = Some config ∧
       c_name config' = c_name config ∧
       c_backend config' = c_backend config ∧
       c_key config' = c_key config).
Proof.
  assert (∀ config' : Config, db !! pk = Some config' ->
            ∃ config, db !! pk = Some config ∧
              c_name config' = c_name config ∧
              c_backend config' = c_backend config ∧
              c_key config' = c_key config) as Hsame
    by (intros config' Hpk; by exists config').
  rewrite report_status_unfold. case_bool_decide; [|done].
  destruct (db !! pk) as [config|] eqn:Hpk; [|simpl; by rewrite Hpk].
  destruct (report_checks _ _); simpl; [by rewrite Hpk|].
  split_and!.
  - apply dom_insert_lookup_L. by rewrite Hpk.
  - intros pk' Hne. by rewrite lookup_insert_ne.
  - intros config'. rewrite lookup_insert_eq. intros [= <-]. by exists config.
Qed.

(** X4: reporting is idempotent: the same report sent again gets the same
    answer and leaves the table as the first one left it. *)
Theorem report_status_idempotent db request pk :
  report_status (report_status db request pk).1 request pk
  = report_status db request pk.
Proof.
  rewrite (report_status_unfold db). case_bool_decide as Hm.
  - destruct (db !! pk) as [config|] eqn:Hpk.
    + destruct (report_checks (c_key config) request) eqn:Hchecks; simpl.
      * rewrite report_status_unfold, bool_decide_eq_true_2, Hpk by done.
        by rewrite Hchecks.
      * rewrite report_status_unfold, bool_decide_eq_true_2 by done.
        rewrite lookup_insert_eq. simpl. rewrite Hchecks. simpl.
        by rewrite insert_insert_eq.
    + simpl. rewrite report_status_unfold, bool_decide_eq_true_2, Hpk by done.
      done.
  - simpl. by rewrite report_status_unfold, bool_decide_eq_false_2.
Qed.

(** X5: the answer to a report does not depend on the reports made before
    it, and a report that is accepted overwrites them: the table is the one
    the accepted report alone would give (last writer wins). *)
Theorem report_status_last_wins db earlier request pk :
  (report_status (report_status db earlier pk).1 request pk).2
  = (report_status db request pk).2 ∧
  (http_status (report_status db request pk).2 = 200 ->
   (report_status (report_status db earlier pk).1 request pk).1
   = (report_status db request pk).1).
Proof.
  rewrite (report_status_unfold db earlier).
  destruct (bool_decide (method earlier ∈ ["POST"])); [|done].
  destruct (db !! pk) as [config|] eqn:Hpk; [|done].
  destruct (report_checks (c_key config) earlier); [done|]. simpl.
  rewrite !report_status_unfold.
  destruct (bool_decide (method request ∈ ["POST"])); [|done].
  rewrite lookup_insert_eq, Hpk. simpl.
  destruct (report_checks (c_key config) request) as [bad|] eqn:Hchecks;
    simpl.
  - split; [done|]. intros H200.
    apply first_bad_response_status in Hchecks.
    unfold status_of, Http.Response_status in H200. congruence.
  - by rewrite insert_insert_eq.
Qed.

(** X7: register answers 201 and stores exactly when the request is a
    POST with the shared secret, a name and a backend of the allow-list:
    then one device and one config are added and every row there was stays
    as it is; otherwise both tables are as before and the answer is not
    201. *)
Theorem register_view_frame st reg request :
  let accepted :=
    method request = "POST" ∧
    POST request !! "secret" = Some (SHARED_SECRET st) ∧
    is_Some (POST request !! "name") ∧
    ∃ backend, POST request !! "backend" = Some backend ∧
               backend ∈ map fst (BACKENDS st) in
  let result := register_view st reg request in
  (accepted ->
   http_status result.2 = 201 ∧
   size (reg_devices result.1) = S (size (reg_devices reg)) ∧
   size (reg_configs result.1) = S (size (reg_configs reg)) ∧
   (∀ pk device, reg_devices reg !! pk = Some device ->
      reg_devices result.1 !! pk = Some device) ∧
   (∀ pk config, reg_configs reg !! pk = Some config ->
      reg_configs result.1 !! pk = Some config)) ∧
  (¬ accepted -> result.1 = reg ∧ http_status result.2 ≠ 201).
Proof.
  cbv zeta. split.
  - intros (Hm & Hsecret & [name Hname] & backend & Hbackend & Hin).
    assert (first_bad_response (POST request)
              [("secret", Exactly (SHARED_SECRET st)); ("name", Anything);
               ("backend", AnyOf (map fst (BACKENDS st)))] = None)
      as Hpassed.
    { simpl. rewrite (forbid_unallowed_right _ _ _ Hsecret).
      unfold forbid_unallowed at 1. rewrite Hname. simpl.
      by rewrite (forbid_unallowed_inside _ _ backend). }
    unfold register_view. rewrite require_http_methods_same by done.
    cbv zeta. rewrite Hpassed. unfold create. simpl.
    pose proof (fresh_id_unused reg) as [Hdevice Hconfig].
    split_and!; [done | by rewrite map_size_insert_None
                | by rewrite map_size_insert_None | |].
    + intros pk device Hpk. rewrite lookup_insert_ne; [done|]. congruence.
    + intros pk config Hpk. rewrite lookup_insert_ne; [done|]. congruence.
  - intros Hrefused. unfold register_view, require_http_methods.
    case_bool_decide as Hm; [|done].
    apply list_elem_of_singleton in Hm. cbv zeta.
    destruct (first_bad_response _ _) as [bad|] eqn:Hchecks.
    + split; [done|]. apply first_bad_response_status in Hchecks.
      simpl. unfold status_of, Http.Response_status. by rewrite Hchecks.
    + destruct Hrefused. simpl in Hchecks.
      destruct (forbid_unallowed _ "secret" _) eqn:Hsecret; [done|].
      destruct (forbid_unallowed _ "name" _) eqn:Hname; [done|].
      destruct (forbid_unallowed _ "backend" _) eqn:Hbackend; [done|].
      apply forbid_unallowed_None in Hsecret as (secret & Hsecret & Hs).
      apply forbid_unallowed_None in Hname as (name & Hname & _).
      apply forbid_unallowed_None in Hbackend as (backend & Hbackend & Hb).
      simpl in Hs, Hb. apply bool_decide_eq_true in Hs as ->.
      apply bool_decide_eq_true in Hb.
      split_and!; [done | done | by exists name | by exists backend].
Qed.

End ControllerFurther.


(** ** The template API: list, creation, subscription, synchronization *)

Section ListFurther.
Import Api.

Lemma truthy_lower a b :
  lower a = lower b -> truthy (Some a) = truthy (Some b).
Proof. unfold truthy. by destruct a, b. Qed.

Lemma icontains_lower field p q :
  lower p = lower q -> icontains field p = icontains field q.
Proof. unfold icontains. by intros ->. Qed.

Lemma qs_filter_ext cond1 cond2 (qs : gmap string Template) :
  (∀ t, cond1 t = cond2 t) -> qs_filter cond1 qs = qs_filter cond2 qs.
Proof.
  intros Hext. unfold qs_filter. apply map_filter_ext.
  intros pk t _. simpl. by rewrite Hext.
Qed.

(** X8: the list does not depend on the case of the letters of the name
    and des values: two requests whose values differ in case only get the
    same templates. *)
Theorem list_filter_ignores_case queryset r1 r2 :
  lower <$> GET r1 !! "name" = lower <$> GET r2 !! "name" ->
  lower <$> GET r1 !! "des" = lower <$> GET r2 !! "des" ->
  BaseListTemplateView.get_queryset queryset r1
  = BaseListTemplateView.get_queryset queryset r2.
Proof.
  intros Hname Hdes. unfold BaseListTemplateView.get_queryset.
  destruct (GET r1 !! "name") as [n1|], (GET r2 !! "name") as [n2|];
    try discriminate Hname;
    destruct (GET r1 !! "des") as [d1|], (GET r2 !! "des") as [d2|];
    try discriminate Hdes; cbn -[truthy] in *.
  - injection Hname as Hname. injection Hdes as Hdes.
    rewrite !andb_false_r. apply qs_filter_ext. intros t.
    by rewrite (icontains_lower _ _ _ Hname), (icontains_lower _ _ _ Hdes).
  - injection Hname as Hname. rewrite !andb_true_r.
    rewrite (truthy_lower _ _ Hname).
    destruct (truthy (Some n2)); cbn; [|done].
    apply qs_filter_ext. intros t. by apply icontains_lower.
  - injection Hdes as Hdes. rewrite !andb_true_r.
    rewrite (truthy_lower _ _ Hdes).
    destruct (truthy (Some d2)); cbn; [|done].
    apply qs_filter_ext. intros t. by apply icontains_lower.
  - done.
Qed.

End ListFurther.

Section CreateFurther.
Import Api Api.BaseCreateTemplateView Derived.


Lemma clean_cert_frame cert_full_clean db cert :
  same_templates db (clean_cert cert_full_clean db cert).1 ∧
  cas (clean_cert cert_full_clean db cert).1 = cas db.
Proof.
  unfold clean_cert. destruct (cert_full_clean db cert); [done|].
  by destruct (certs db !! cert.1).
Qed.

Lemma clean_vpn_frame vpn_full_clean db vpn :
  same_templates db (clean_vpn vpn_full_clean db vpn).1 ∧
  cas (clean_vpn vpn_full_clean db vpn).1 = cas db.
Proof. unfold clean_vpn. by destruct (vpn_full_clean db vpn). Qed.



Lemma save_or_report_cases template_full_clean db template import_url
    request :
  save_or_report template_full_clean db template import_url request
  = (saved db template import_url request,
     Returns {| data := NoData; status := 200 |}) ∨
  ∃ messages,
    save_or_report template_full_clean db template import_url request
    = (db, Returns {| data := ErrorDict {["template_errors" := messages]};
                      status := 500 |}).
Proof.
  unfold save_or_report, save_template.
  destruct (template_full_clean db template) as [messages|];
    [right; by exists messages | by left].
Qed.


(** X10: nothing is rolled back: in the vpn branch a ca that passes
    validation is stored and stays stored whatever happens afterwards, also
    when the view then raises or answers 500. *)
Theorem create_keeps_valid_ca get_remote_template_data ca_full_clean
    cert_full_clean vpn_full_clean template_full_clean db request vp :
  let data := get_remote_template_data (POST request !! "url") in
  d_type data = "vpn" -> d_vpn data = Some vp ->
  ca_full_clean db (vp_ca vp) = true ->
  cas (BaseCreateTemplateView.post get_remote_template_data ca_full_clean
         cert_full_clean vpn_full_clean template_full_clean db request).1
    !! (vp_ca vp).1
  = Some (vp_ca vp).2.
Proof.
  cbv zeta. intros Htype Hvp Hca. unfold BaseCreateTemplateView.post.
  rewrite bool_decide_eq_true_2, Hvp by done.
  unfold prepare_vpn, clean_ca. rewrite Hca.
  set (db1 := set_cas _ db).
  assert (cas db1 !! (vp_ca vp).1 = Some (vp_ca vp).2) as Hstored
    by apply lookup_insert_eq.
  match goal with |- context [clean_cert _ db1 ?c] =>
    pose proof (clean_cert_frame cert_full_clean db1 c) as [_ Hcert];
    destruct (clean_cert cert_full_clean db1 c) as [db2 [e|cert]]
  end; simpl in Hcert.
  - simpl. by rewrite Hcert.
  - match goal with |- context [clean_vpn _ db2 ?v] =>
      pose proof (clean_vpn_frame vpn_full_clean db2 v) as [_ Hvpn];
      destruct (clean_vpn vpn_full_clean db2 v) as [db3 [e|vpn]]
    end; simpl in Hvpn.
    + simpl. by rewrite Hvpn, Hcert.
    + match goal with |- context [save_or_report _ db3 ?t ?u ?r] =>
        destruct (save_or_report_cases template_full_clean db3 t u r)
          as [-> | [messages ->]]
      end; simpl; by rewrite Hvpn, Hcert.
Qed.

(** X11: in the vpn branch, a ca that fails validation and is not stored
    under its id makes the view raise DoesNotExist: the client gets a 500
    without template_errors, and nothing is stored. *)
Theorem create_unknown_invalid_ca get_remote_template_data ca_full_clean
    cert_full_clean vpn_full_clean template_full_clean db request vp :
  let data := get_remote_template_data (POST request !! "url") in
  d_type data = "vpn" -> d_vpn data = Some vp ->
  ca_full_clean db (vp_ca vp) = false ->
  cas db !! (vp_ca vp).1 = None ->
  BaseCreateTemplateView.post get_remote_template_data ca_full_clean
    cert_full_clean vpn_full_clean template_full_clean db request
  = (db, Raises DoesNotExist) ∧
  http_status (Raises (R := Response) DoesNotExist) = 500.
Proof.
  cbv zeta. intros Htype Hvp Hca Hnone. split; [|done].
  unfold BaseCreateTemplateView.post.
  rewrite bool_decide_eq_true_2, Hvp by done.
  unfold prepare_vpn, clean_ca. by rewrite Hca, Hnone.
Qed.

(** X12: a vpn that fails validation is replaced by the stored vpn of the
    same name, whatever the id of that one, when exactly one is stored; when
    none is stored under that name, DoesNotExist is raised. *)
Theorem stored_vpn_found_by_name vpn_full_clean db vpn :
  vpn_full_clean db vpn = false ->
  (∀ pk row, vpns db !! pk = Some row -> vpn_name row = vpn_name vpn.2 ->
     (∀ pk' row', vpns db !! pk' = Some row' ->
        vpn_name row' = vpn_name vpn.2 -> pk' = pk) ->
     clean_vpn vpn_full_clean db vpn = (db, inr (pk, row))) ∧
  ((∀ pk row, vpns db !! pk = Some row -> vpn_name row ≠ vpn_name vpn.2) ->
   clean_vpn vpn_full_clean db vpn = (db, inl DoesNotExist)).
Proof.
  intros Hinvalid. unfold clean_vpn, table_get. rewrite Hinvalid. split.
  - intros pk row Hpk Hname Hunique.
    match goal with |- context [filter ?P (vpns db)] =>
      assert (filter P (vpns db) = {[pk := row]}) as ->
    end; [|by rewrite map_to_list_singleton].
    apply map_eq. intros i. apply option_eq. intros r.
    rewrite map_lookup_filter_Some, lookup_singleton_Some. simpl.
    rewrite bool_decide_eq_true. split.
    + intros [Hi Hr]. assert (i = pk) as -> by eauto. split; congruence.
    + by intros [<- <-].
  - intros Hnone.
    match goal with |- context [filter ?P (vpns db)] =>
      assert (filter P (vpns db) = ∅) as ->
    end; [|by rewrite map_to_list_empty].
    apply map_empty. intros i. apply map_lookup_filter_None. right.
    intros r Hi. simpl. rewrite bool_decide_eq_true. by eapply Hnone.
Qed.

End CreateFurther.

Section SubscriptionFurther.
Import Api.

Lemma subscription_get_inr_iff template subscriber rows i row :
  subscription_get template subscriber rows = inr (i, row) ↔
  list_find (same_pair template subscriber) rows = Some (i, row) ∧
  list_find (same_pair template subscriber) (drop (S i) rows) = None.
Proof.
  unfold subscription_get.
  destruct (list_find _ rows) as [[j y]|] eqn:Efind.
  - destruct (list_find _ (drop (S j) rows)) as [[? ?]|] eqn:Erest.
    + split; [done|]. intros [[= -> ->] Hnone]. congruence.
    + split; [by intros [= -> ->] | by intros [[= -> ->] _]].
  - split; [done | by intros [[=] _]].
Qed.

(** After the row of the pair has been replaced by a row of the same pair,
    the lookup finds the new row at the same place. *)
Lemma subscription_get_insert template subscriber rows i row row' :
  subscription_get template subscriber rows = inr (i, row) ->
  same_pair template subscriber row' ->
  subscription_get template subscriber (<[i := row']> rows) = inr (i, row').
Proof.
  intros [Hfind Hrest]%subscription_get_inr_iff Hpair.
  apply list_find_Some in Hfind as (Hi & _ & Hbefore).
  apply subscription_get_inr_iff. split.
  - apply list_find_Some. split_and!; [|done|].
    + apply list_lookup_insert_eq. by eapply lookup_lt_Some.
    + intros j y Hj Hlt. rewrite list_lookup_insert_ne in Hj by lia. eauto.
  - by rewrite drop_insert_lt by lia.
Qed.

(** After a row has been appended for a pair that had none, the lookup
    finds it. *)
Lemma subscription_get_snoc template subscriber rows row :
  subscription_get template subscriber rows = inl DoesNotExist ->
  same_pair template subscriber row ->
  subscription_get template subscriber (rows ++ [row])
  = inr (length rows, row).
Proof.
  intros Hnone Hpair.
  assert (list_find (same_pair template subscriber) rows = None) as Hfind.
  { apply list_find_None, Forall_forall.
    by apply subscription_get_missing. }
  apply subscription_get_inr_iff. split.
  - rewrite list_find_app_r by done. simpl.
    rewrite decide_True by done. simpl. by rewrite ?Nat.add_0_r.
  - rewrite drop_ge; [done|]. rewrite length_app. simpl. lia.
Qed.

(** X13: a subscription POST without a template, or for a template that
    does not exist, raises DoesNotExist (a 500 for the client) and stores
    nothing. *)
Theorem subscription_unknown_template to_python full_clean db request :
  (POST request !! "template" = None ∨
   ∃ template, POST request !! "template" = Some template ∧
               templates db !! template = None) ->
  BaseTemplateSubscriptionView.post to_python full_clean db request
  = (db, Raises DoesNotExist) ∧
  http_status (Raises (R := Response) DoesNotExist) = 500.
Proof.
  intros Hcase. split; [|done]. unfold BaseTemplateSubscriptionView.post.
  destruct Hcase as [-> | (template & -> & ->)]; done.
Qed.

(** X14: what a subscription POST that is answered 200 has stored can be
    read back: the lookup of the posted (template, subscriber) pair in the
    new table finds one row, whose flag is the posted subscribe value. *)
Theorem subscription_round_trip to_python full_clean db request :
  http_status
    (BaseTemplateSubscriptionView.post to_python full_clean db request).2
  = 200 ->
  ∃ template flag i row,
    POST request !! "template" = Some template ∧
    to_python (POST request !! "subscribe") = Some flag ∧
    subscription_get template (POST request !! "subscriber")
      (subscriptions
         (BaseTemplateSubscriptionView.post to_python full_clean db request).1)
    = inr (i, row) ∧
    s_subscribe row = flag.
Proof.
  unfold BaseTemplateSubscriptionView.post.
  destruct (POST request !! "template") as [template|]; [|done].
  destruct (templates db !! template); [|done].
  destruct (subscription_get _ _ _) as [e|[i notification]] eqn:Eget.
  - destruct e; try done.
    destruct (to_python _) as [flag|]; [|done].
    destruct (full_clean _ _); [by destruct l|]. simpl. intros _.
    eexists template, flag, _, _.
    split_and!; [done | done | by apply subscription_get_snoc | done].
  - destruct (to_python _) as [flag|]; [|done]. simpl. intros _.
    pose proof (subscription_get_inr _ _ _ _ _ Eget) as [_ Hpair].
    eexists template, flag, _, _.
    split_and!;
      [done | done | by eapply subscription_get_insert | done].
Qed.

(** X15: a subscription POST is idempotent: sent a second time it gets the
    same answer and leaves the tables as the first one left them. *)
Theorem subscription_idempotent to_python full_clean db request :
  BaseTemplateSubscriptionView.post to_python full_clean
    (BaseTemplateSubscriptionView.post to_python full_clean db request).1
    request
  = BaseTemplateSubscriptionView.post to_python full_clean db request.
Proof.
  unfold BaseTemplateSubscriptionView.post at 2 3.
  destruct (POST request !! "template") as [template|] eqn:Htemplate;
    [|simpl; unfold BaseTemplateSubscriptionView.post; by rewrite Htemplate].
  destruct (templates db !! template) as [t|] eqn:Ht;
    [|simpl; unfold BaseTemplateSubscriptionView.post;
      by rewrite Htemplate, Ht].
  destruct (subscription_get _ _ _) as [e|[i notification]] eqn:Eget.
  - destruct e;
      try (simpl; unfold BaseTemplateSubscriptionView.post;
           by rewrite Htemplate, Ht, Eget).
    destruct (to_python _) as [flag|] eqn:Hflag;
      [|simpl; unfold BaseTemplateSubscriptionView.post;
        by rewrite Htemplate, Ht, Eget, Hflag].
    destruct (full_clean _ _) as [messages|] eqn:Hclean;
      [simpl; unfold BaseTemplateSubscriptionView.post;
       by rewrite Htemplate, Ht, Eget, Hflag, Hclean|].
    simpl. unfold BaseTemplateSubscriptionView.post.
    rewrite Htemplate. simpl. rewrite Ht.
    rewrite (subscription_get_snoc _ _ _ _ Eget) by done.
    rewrite Hflag. simpl. unfold set_subscriptions. simpl.
    rewrite list_insert_id; [done|].
    by rewrite lookup_app_r, Nat.sub_diag by lia.
  - destruct (to_python _) as [flag|] eqn:Hflag;
      [|simpl; unfold BaseTemplateSubscriptionView.post;
        by rewrite Htemplate, Ht, Eget, Hflag].
    simpl. unfold BaseTemplateSubscriptionView.post.
    rewrite Htemplate. simpl. rewrite Ht.
    pose proof (subscription_get_inr _ _ _ _ _ Eget) as [_ Hpair].
    rewrite (subscription_get_insert _ _ _ _ _ _ Eget) by done.
    rewrite Hflag. simpl. unfold set_subscriptions. simpl.
    by rewrite list_insert_insert_eq.
Qed.

(** X16: a subscription POST never deletes a row, never changes the pair
    of a row, and leaves as it is every row whose template or subscriber is
    not the posted one; the other tables are not touched. *)
Theorem subscription_post_frame to_python full_clean db request :
  let db' :=
    (BaseTemplateSubscriptionView.post to_python full_clean db request).1 in
  (cas db' = cas db ∧ certs db' = certs db ∧ vpns db' = vpns db ∧
   templates db' = templates db ∧ tasks db' = tasks db) ∧
  length (subscriptions db) <= length (subscriptions db') ∧
  ∀ j row, subscriptions db !! j = Some row ->
    ∃ row', subscriptions db' !! j = Some row' ∧
      pair_of row' = pair_of row ∧
      (POST request !! "template" ≠ Some (s_template row) ∨
       POST request !! "subscriber" ≠ s_subscriber row -> row' = row).
Proof.
  cbv zeta.
  assert (∀ j row, subscriptions db !! j = Some row ->
    ∃ row', subscriptions db !! j = Some row' ∧
      pair_of row' = pair_of row ∧
      (POST request !! "template" ≠ Some (s_template row) ∨
       POST request !! "subscriber" ≠ s_subscriber row -> row' = row))
    as Hsame by (intros j row Hj; by exists row).
  unfold BaseTemplateSubscriptionView.post.
  destruct (POST request !! "template") as [template|]; [|done].
  destruct (templates db !! template); [|done].
  destruct (subscription_get _ _ _) as [e|[i notification]] eqn:Eget.
  - destruct e; try done.
    destruct (to_python _) as [flag|]; [|done].
    destruct (full_clean _ _); [done|]. simpl.
    split_and!; [done..| rewrite length_app; lia |].
    intros j row Hj. exists row. split; [|done].
    rewrite lookup_app_l; [done | by eapply lookup_lt_Some].
  - destruct (to_python _) as [flag|]; [|done]. simpl.
    split_and!; [done..| by rewrite length_insert |].
    apply subscription_get_inr in Eget as [Hi [Ht Hs]].
    intros j row Hj. destruct (decide (j = i)) as [->|Hne].
    + assert (row = notification) as -> by congruence.
      eexists. split_and!.
      * apply list_lookup_insert_eq. by eapply lookup_lt_Some.
      * done.
      * rewrite Ht, Hs. by intros [? | ?].
    + exists row. by rewrite list_lookup_insert_ne.
Qed.

(** X17: when the table already holds two rows for the posted pair, the
    view raises MultipleObjectsReturned and stores nothing. *)
Theorem subscription_duplicates_raise to_python full_clean db request
    template i j row1 row2 :
  POST request !! "template" = Some template ->
  is_Some (templates db !! template) ->
  i < j ->
  subscriptions db !! i = Some row1 -> subscriptions db !! j = Some row2 ->
  same_pair template (POST request !! "subscriber") row1 ->
  same_pair template (POST request !! "subscriber") row2 ->
  BaseTemplateSubscriptionView.post to_python full_clean db request
  = (db, Raises MultipleObjectsReturned).
Proof.
  intros Htemplate [t Ht] Hlt Hi Hj Hrow1 Hrow2.
  unfold BaseTemplateSubscriptionView.post. rewrite Htemplate, Ht.
  assert (subscription_get template (POST request !! "subscriber")
            (subscriptions db) = inl MultipleObjectsReturned) as ->; [|done].
  unfold subscription_get.
  destruct (list_find _ (subscriptions db)) as [[k y]|] eqn:Efind.
  - apply list_find_Some in Efind as (Hk & Hy & Hbefore).
    assert (k <= i) as Hle.
    { destruct (decide (k <= i)); [done|].
      destruct (Hbefore i row1); [done | lia | done]. }
    destruct (list_find _ (drop (S k) (subscriptions db))) as [[? ?]|]
      eqn:Erest; [done|].
    apply list_find_None in Erest. rewrite Forall_forall in Erest.
    destruct (Erest row2); [|done].
    apply list_elem_of_lookup. exists (j - S k).
    rewrite lookup_drop. by replace (S k + (j - S k)) with j by lia.
  - apply list_find_None in Efind. rewrite Forall_forall in Efind.
    destruct (Efind row1); [by eapply list_elem_of_lookup_2 | done].
Qed.

End SubscriptionFurther.


Section SynchronizationFurther.
Import Api.

(** X18: the synchronization view stores and queues nothing unless it
    answers 200: without a template_id, or for an unknown one, it raises
    DoesNotExist; when the template fails validation the ValidationError is
    not caught (a 500 for the client, without a template_errors body). *)
Theorem synchronization_failures url full_clean db request :
  (POST request !! "template_id" = None ∨
   (∃ pk, POST request !! "template_id" = Some pk ∧
          templates db !! pk = None) ->
   BaseTemplateSynchronizationView.post url full_clean db request
   = (db, Raises DoesNotExist)) ∧
  (∀ pk row messages,
     POST request !! "template_id" = Some pk ->
     templates db !! pk = Some row ->
     full_clean db (pk, row) = inl messages ->
     BaseTemplateSynchronizationView.post url full_clean db request
     = (db, Raises (ValidationError messages))) ∧
  (http_status
     (BaseTemplateSynchronizationView.post url full_clean db request).2
   ≠ 200 ->
   (BaseTemplateSynchronizationView.post url full_clean db request).1 = db) ∧
  (∀ r, (BaseTemplateSynchronizationView.post url full_clean db request).2
        = Returns r -> r = {| data := NoData; status := 200 |}).
Proof.
  unfold BaseTemplateSynchronizationView.post. split_and!.
  - by intros [-> | (pk & -> & ->)].
  - intros pk row messages -> -> ->. done.
  - destruct (POST request !! "template_id") as [pk|]; [|done].
    destruct (templates db !! pk) as [row|]; [|done].
    by destruct (full_clean db (pk, row)).
  - intros r. destruct (POST request !! "template_id") as [pk|]; [|done].
    destruct (templates db !! pk) as [row|]; [|done].
    destruct (full_clean db (pk, row)); [done|]. by intros [= <-].
Qed.

(** X19: the synchronization view never adds or removes a template and
    touches no other table than the templates and the task queue; when the
    template passes validation, the cleaned template replaces the stored one
    and one task, for the template's url and the subscriber scheme://host,
    is appended to the queue. *)
Theorem synchronization_frame url full_clean db request :
  let db' :=
    (BaseTemplateSynchronizationView.post url full_clean db request).1 in
  dom (templates db') = dom (templates db) ∧
  (cas db' = cas db ∧ certs db' = certs db ∧ vpns db' = vpns db ∧
   subscriptions db' = subscriptions db) ∧
  (∀ pk', POST request !! "template_id" ≠ Some pk' ->
     templates db' !! pk' = templates db !! pk') ∧
  (∀ pk row template,
     POST request !! "template_id" = Some pk ->
     templates db !! pk = Some row ->
     full_clean db (pk, row) = inr template ->
     templates db' !! pk = Some template ∧
     tasks db'
     = (tasks db ++
        [mkTask pk (url template)
           (scheme request ++ "://" ++ host request) true])%list ∧
     http_status
       (BaseTemplateSynchronizationView.post url full_clean db request).2
     = 200).
Proof.
  cbv zeta. unfold BaseTemplateSynchronizationView.post.
  destruct (POST request !! "template_id") as [pk|]; [|by split_and!].
  destruct (templates db !! pk) as [row|] eqn:Hpk.
  - destruct (full_clean db (pk, row)) as [messages|template] eqn:Hclean.
    + split_and!; try done.
      intros pk0 row0 template0 [= <-] Hrow0 Hclean0.
      rewrite Hpk in Hrow0. injection Hrow0 as <-. congruence.
    + simpl. split_and!; try done.
      * apply dom_insert_lookup_L. by rewrite Hpk.
      * intros pk' Hne. apply lookup_insert_ne. congruence.
      * intros pk0 row0 template0 [= <-] Hrow0 Hclean0.
        rewrite Hpk in Hrow0. injection Hrow0 as <-.
        rewrite Hclean in Hclean0. injection Hclean0 as <-.
        by rewrite lookup_insert_eq.
  - split_and!; try done.
    intros pk0 row0 template0 [= <-] Hrow0. congruence.
Qed.

End SynchronizationFurther.

(** ** The device key field: what validation accepts *)

Section DeviceKeyFurther.
Import DeviceKey.

(** X20: the validation of a key is exact: a key is accepted if and only if
    no other device has it and it is either blank or at most 64 characters
    long and matched by the pattern. *)
Theorem clean_key_accepts_iff others value :
  clean_key others value = [] ↔
  (value ∉ others) ∧
  (value = "" ∨
   (String.length value <= 64 ∧ regex_search value = true)).
Proof.
  unfold clean_key, validate, run_validators, MaxLengthValidator,
    RegexValidator, validate_unique, max_length. simpl.
  destruct (String.eqb_spec value "") as [->|Hne]; simpl.
  - case_bool_decide as Hin.
    + split; [done | by intros [? _]].
    + split; [intros _; split; [done | by left] | done].
  - destruct (Nat.ltb_spec 64 (String.length value)) as [Hlong|Hshort].
    + split; [done|]. intros [_ [? | [? _]]]; [done | lia].
    + destruct (regex_search value); simpl.
      * case_bool_decide as Hin.
        -- split; [done | by intros [? _]].
        -- split; [intros _; split; [done | by right] | done].
      * split; [done|]. by intros [_ [? | [_ ?]]].
Qed.

(** X21: a key that is accepted and not blank holds no dot and no slash,
    and no whitespace other than one line feed at its very end. *)
Theorem accepted_key_shape others value :
  clean_key others value = [] -> value ≠ "" ->
  ∃ body, body ≠ "" ∧ free_of_spaces_dots_slashes body = true ∧
          (value = body ∨ value = body ++ nl).
Proof.
  intros Hclean Hne.
  apply clean_key_accepted in Hclean as (_ & Hregex & _); [|done].
  by apply regex_search_spec in Hregex.
Qed.

Lemma all_chars_app p a b :
  all_chars p (a ++ b) = all_chars p a && all_chars p b.
Proof.
  induction a as [|c a IH]; [done|].
  change (all_chars p (String c (a ++ b))
          = all_chars p (String c a) && all_chars p b).
  simpl. by rewrite IH, andb_assoc.
Qed.

Lemma all_chars_weaken (p q : ascii -> bool) s :
  (∀ c, p c = true -> q c = true) ->
  all_chars p s = true -> all_chars q s = true.
Proof.
  intros Hpq. induction s as [|c s IH]; simpl; [done|].
  intros [Hc Hs]%andb_true_iff. by rewrite (Hpq c Hc), IH.
Qed.

(** X22: a key of more than 64 characters is refused with the max_length
    error; a key that is not blank and holds, anywhere, a dot, a slash or a
    whitespace character other than the line feed is refused with the
    invalid error. *)
Theorem clean_key_errors others value :
  (64 < String.length value -> ErrMaxLength ∈ clean_key others value) ∧
  (value ≠ "" ->
   all_chars (fun c => in_class c || Ascii.eqb c (ascii_of_nat 10)) value
   = false ->
   ErrInvalid ∈ clean_key others value).
Proof.
  unfold clean_key, validate, run_validators, MaxLengthValidator,
    RegexValidator, max_length. simpl. split.
  - intros Hlong. destruct value as [|c value]; [simpl in Hlong; lia|].
    simpl String.eqb. cbv iota.
    apply Nat.ltb_lt in Hlong. rewrite Hlong. simpl. apply list_elem_of_here.
  - intros Hne Hbad. apply String.eqb_neq in Hne. rewrite Hne.
    assert (regex_search value = false) as ->.
    { destruct (regex_search value) eqn:Hregex; [|done].
      apply regex_search_spec in Hregex as (body & _ & Hall & Hvalue).
      apply (all_chars_weaken _
               (fun c => in_class c || Ascii.eqb c (ascii_of_nat 10)))
        in Hall; [|intros c ->; done].
      destruct Hvalue as [-> | ->]; [congruence|].
      rewrite all_chars_app, Hall in Hbad. discriminate Hbad. }
    rewrite !elem_of_app. left. right. apply list_elem_of_here.
Qed.

End DeviceKeyFurther.

(** ** The further properties on concrete tables and requests *)

Section FurtherExamples.
Import Controller Api Examples.

Lemma wrong_method_refused_witness :
  http_status (checksum no_checksum configs (reporting "s3cret" "applied") "d1")
  = 405 ∧
  report_status configs (with_key "s3cret") "d1"
  = (configs, Returns not_allowed).
Proof.
  destruct (wrong_method_refused no_checksum no_archive site configs
              fleet (reporting "s3cret" "applied") "d1")
    as (Hget & _ & _).
  destruct (wrong_method_refused no_checksum no_archive site configs
              fleet (with_key "s3cret") "d1")
    as (_ & Hpost & _).
  split.
  - destruct Hget as [-> _]; [discriminate | reflexivity].
  - destruct Hpost as [-> _]; [discriminate | reflexivity].
Defined.

Lemma register_view_frame_witness :
  http_status (register_view site fleet joining).2 = 201 ∧
  reg_devices (register_view site fleet joining).1 !! "d1"
  = Some (mkDevice "router" "s3cret") ∧
  (register_view site fleet
     (post_with [("secret", "guess"); ("name", "ap-7");
                 ("backend", "netjsonconfig.OpenWisp")])).1 = fleet.
Proof.
  pose proof (register_view_frame site fleet joining) as Hjoining.
  pose proof (register_view_frame site fleet
                (post_with [("secret", "guess"); ("name", "ap-7");
                            ("backend", "netjsonconfig.OpenWisp")]))
    as Hguess.
  cbv zeta in Hjoining, Hguess.
  destruct Hjoining as [Haccepted _]. destruct Hguess as [_ Hrefused].
  destruct Haccepted as (H201 & _ & _ & Hdevices & _).
  { split_and!; [reflexivity | vm_compute; reflexivity
                | eexists; vm_compute; reflexivity |].
    exists "netjsonconfig.OpenWisp".
    split; [vm_compute; reflexivity | simpl; rewrite !elem_of_cons; tauto]. }
  destruct Hrefused as [Hsame _].
  { intros (_ & Hsecret & _). vm_compute in Hsecret. discriminate Hsecret. }
  split_and!; [exact H201 | | exact Hsame].
  apply Hdevices. vm_compute. reflexivity.
Defined.

Lemma right_key_served_witness :
  http_status (checksum no_checksum configs (with_key "s3cret") "d1") = 200 ∧
  download_config no_archive configs (with_key "s3cret") "d1"
  = Returns (no_archive router (with_key "s3cret")).
Proof.
  destruct (right_key_served no_checksum no_archive configs
              (with_key "s3cret") "d1" router) as [-> ->];
    [vm_compute; reflexivity | reflexivity | vm_compute; reflexivity |].
  split; reflexivity.
Defined.

Lemma list_filter_ignores_case_witness :
  BaseListTemplateView.get_queryset library searching
  = BaseListTemplateView.get_queryset library searching_lower.
Proof.
  apply list_filter_ignores_case; vm_compute; reflexivity.
Defined.


Lemma create_keeps_valid_ca_witness :
  http_status
    (create_example taken (importing "http://library.test/vpn")).2 = 500 ∧
  cas (create_example taken (importing "http://library.test/vpn")).1 !! "ca1"
  = Some (mkCa "").
Proof.
  split; [vm_compute; reflexivity|]. unfold create_example.
  apply (create_keeps_valid_ca remote new_ca new_cert new_vpn new_template
           taken (importing "http://library.test/vpn")
           {| vp_id := "vpn1"; vp_name := "tunnel"; vp_other := "";
              vp_ca := ("ca1", mkCa ""); vp_cert := ("cert1", "") |});
    vm_compute; reflexivity.
Defined.

Lemma create_unknown_invalid_ca_witness :
  BaseCreateTemplateView.post remote never_valid new_cert new_vpn new_template
    nothing (importing "http://library.test/vpn")
  = (nothing, Raises DoesNotExist).
Proof.
  apply (create_unknown_invalid_ca remote never_valid new_cert new_vpn
           new_template nothing (importing "http://library.test/vpn")
           {| vp_id := "vpn1"; vp_name := "tunnel"; vp_other := "";
              vp_ca := ("ca1", mkCa ""); vp_cert := ("cert1", "") |});
    vm_compute; reflexivity.
Defined.

Lemma stored_vpn_found_by_name_witness :
  BaseCreateTemplateView.clean_vpn never_valid with_tunnel
    ("vpn1", mkVpn "tunnel" "ca1" "cert1" "")
  = (with_tunnel, inr ("old", tunnel)) ∧
  BaseCreateTemplateView.clean_vpn never_valid nothing
    ("vpn1", mkVpn "tunnel" "ca1" "cert1" "")
  = (nothing, inl DoesNotExist).
Proof.
  split.
  - destruct (stored_vpn_found_by_name never_valid with_tunnel
                ("vpn1", mkVpn "tunnel" "ca1" "cert1" "")) as [Hfound _];
      [reflexivity|].
    apply Hfound; [vm_compute; reflexivity | reflexivity |].
    intros pk' row' Hlookup _. unfold with_tunnel in Hlookup.
    simpl in Hlookup.
    apply lookup_singleton_Some in Hlookup as [<- _]. reflexivity.
  - destruct (stored_vpn_found_by_name never_valid nothing
                ("vpn1", mkVpn "tunnel" "ca1" "cert1" "")) as [_ Hnone];
      [reflexivity|].
    apply Hnone. intros pk row Hlookup. vm_compute in Hlookup.
    discriminate Hlookup.
Defined.

Lemma subscription_unknown_template_witness :
  subscribe_example shelf
    (post_with [("template", "t9"); ("subscribe", "True")])
  = (shelf, Raises DoesNotExist).
Proof.
  unfold subscribe_example.
  apply (subscription_unknown_template boolean any_row shelf).
  right. exists "t9". split; vm_compute; reflexivity.
Defined.

Lemma subscription_round_trip_witness :
  ∃ i row,
    subscription_get "t1" (Some "http://subscriber.test")
      (subscriptions subscribed) = inr (i, row) ∧
    s_subscribe row = true.
Proof.
  destruct (subscription_round_trip boolean any_row shelf (subscribing "True"))
    as (template & flag & i & row & Htemplate & Hflag & Hget & Hrow);
    [vm_compute; reflexivity|].
  vm_compute in Htemplate. injection Htemplate as <-.
  vm_compute in Hflag. injection Hflag as <-.
  exists i, row. split; [exact Hget | exact Hrow].
Defined.

Lemma subscription_duplicates_raise_witness :
  subscribe_example twice (subscribing "True")
  = (twice, Raises MultipleObjectsReturned).
Proof.
  unfold subscribe_example.
  apply (subscription_duplicates_raise boolean any_row twice
           (subscribing "True") "t1" 0 1
           (mkTemplateSubscription "t1" (Some "http://subscriber.test") true)
           (mkTemplateSubscription "t1" (Some "http://subscriber.test") false));
    [vm_compute; reflexivity | exists open_template; vm_compute; reflexivity
    | lia | reflexivity | reflexivity
    | split; vm_compute; reflexivity | split; vm_compute; reflexivity].
Defined.

Lemma synchronization_failures_witness :
  sync_example shelf (synchronizing "t9") = (shelf, Raises DoesNotExist) ∧
  sync_example shelf (synchronizing "t1")
  = (shelf,
     Raises (ValidationError ["Only imported templates are synchronized."])).
Proof.
  unfold sync_example. split.
  - destruct (synchronization_failures library_url recheck shelf
                (synchronizing "t9")) as (Hunknown & _).
    apply Hunknown. right. exists "t9". split; vm_compute; reflexivity.
  - destruct (synchronization_failures library_url recheck shelf
                (synchronizing "t1")) as (_ & Hinvalid & _).
    apply (Hinvalid "t1" open_template); vm_compute; reflexivity.
Defined.

Lemma synchronization_frame_witness :
  t_other <$> templates (sync_example shelf (synchronizing "t2")).1 !! "t2"
  = Some "synchronized" ∧
  tasks (sync_example shelf (synchronizing "t2")).1
  = [mkTask "t2" (Some "http://library.test/Backbone")
       "http://controller.test" true].
Proof.
  unfold sync_example.
  pose proof (synchronization_frame library_url recheck shelf
                (synchronizing "t2")) as H.
  cbv zeta in H. destruct H as (_ & _ & _ & Hsync).
  destruct (Hsync "t2" keyed_template
              (mkTemplate "Backbone" "core links" "secret_key" (Some "k-42")
                 "generic" None "synchronized")) as (-> & -> & _);
    [vm_compute; reflexivity | vm_compute; reflexivity
    | vm_compute; reflexivity |].
  split; reflexivity.
Defined.

Lemma accepted_key_shape_witness :
  ∃ body, body ≠ "" ∧
    DeviceKey.free_of_spaces_dots_slashes body = true ∧
    ("abc" ++ nl = body ∨ "abc" ++ nl = body ++ nl).
Proof.
  apply (accepted_key_shape [] ("abc" ++ nl));
    [vm_compute; reflexivity | discriminate].
Defined.

Lemma clean_key_errors_witness :
  DeviceKey.ErrMaxLength ∈ DeviceKey.clean_key [] sixty_five ∧
  DeviceKey.ErrInvalid ∈ DeviceKey.clean_key [] "a b".
Proof.
  split.
  - apply (clean_key_errors [] sixty_five). vm_compute. lia.
  - apply (clean_key_errors [] "a b"); [discriminate | vm_compute; reflexivity].
Defined.

End FurtherExamples.
